(** * bubbles.backends.xlsx: schema inference and row extraction

    A shallow embedding of [bubbles/backends/xlsx.py]: the read-only
    [XLSXStore] with its cached workbook, the constructor of [XLSXObject]
    (sheet selection, first row arithmetic, header names, storage types)
    and its [rows] and [records] generators, followed by the properties
    that the specification states about them and by further properties of
    the module. *)

From Stdlib Require Import ZArith Lia Ascii String List.
From Stdlib Require Import Floats.PrimFloat.
From stdpp Require Import base option list strings gmap pretty.

Open Scope string_scope.
Open Scope Z_scope.

Module XLSX.

(** ** Exceptions and fallible computations *)

(** The exceptions that can leave this module.  [StopIteration],
    [IndexError], [KeyError], [ValueError] and [OverflowError] come from
    the builtins [next], list indexing, the workbook's item lookup and
    [len]. *)
Inductive exn : Type :=
  | BubblesError (msg : string)
  | ArgumentError (msg : string)
  | RuntimeError (msg : string)
  | ValueError (msg : string)
  | OverflowError (msg : string)
  | StopIteration
  | IndexError
  | KeyError (arg : string).

Inductive result (A : Type) : Type :=
  | Ok (a : A)
  | Raise (e : exn).
Arguments Ok {A} a.
Arguments Raise {A} e.

Definition bind {A B} (m : result A) (k : A -> result B) : result B :=
  match m with
  | Ok a => k a
  | Raise e => Raise e
  end.

Notation "'let!' x ':=' m 'in' k" := (bind m (fun x => k))
  (at level 10, x pattern, m at level 100, k at level 200).

(** ** Cell values *)

(** The raw value of a cell: [None], a boolean, an integer, a binary64
    float, a string, or a date/time object (kept as its printed form). *)
Inductive raw_value : Type :=
  | VNone
  | VBool (b : bool)
  | VInt (n : Z)
  | VFloat (f : float)
  | VStr (s : string)
  | VDate (iso : string).

(** Python truthiness, [bool(v)], as used by [any]. *)
Definition truthy (v : raw_value) : bool :=
  match v with
  | VNone => false
  | VBool b => b
  | VInt n => negb (n =? 0)
  | VFloat f => negb (PrimFloat.eqb f 0%float)
  | VStr s => negb (String.eqb s "")
  | VDate _ => true
  end.

(** [any(values)] *)
Definition any (values : list raw_value) : bool := existsb truthy values.

(** ** Strings: [str.split()] and [' '.join] *)

(** A Python [str] is kept as the bytes of its UTF-8 encoding, which is
    also what a string literal of this file holds; concatenation,
    equality and emptiness of the text are those of the bytes. *)

(** The UTF-8 encoding of one code point. *)
Definition utf8_encode (cp : N) : string :=
  (if cp <? 0x80 then String (ascii_of_N cp) ""
   else if cp <? 0x800 then
     String (ascii_of_N (0xC0 + cp / 0x40))
       (String (ascii_of_N (0x80 + cp mod 0x40)) "")
   else if cp <? 0x10000 then
     String (ascii_of_N (0xE0 + cp / 0x1000))
       (String (ascii_of_N (0x80 + (cp / 0x40) mod 0x40))
          (String (ascii_of_N (0x80 + cp mod 0x40)) ""))
   else
     String (ascii_of_N (0xF0 + cp / 0x40000))
       (String (ascii_of_N (0x80 + (cp / 0x1000) mod 0x40))
          (String (ascii_of_N (0x80 + (cp / 0x40) mod 0x40))
             (String (ascii_of_N (0x80 + cp mod 0x40)) ""))))%N.

(** The code points for which [str.isspace] holds, at which [str.split()]
    cuts: the ASCII controls and the space, NEL and the no-break space,
    and the space and line separators of the higher planes. *)
Definition whitespace_code_points : list N :=
  [0x9; 0xA; 0xB; 0xC; 0xD; 0x1C; 0x1D; 0x1E; 0x1F; 0x20; 0x85; 0xA0;
   0x1680; 0x2000; 0x2001; 0x2002; 0x2003; 0x2004; 0x2005; 0x2006; 0x2007;
   0x2008; 0x2009; 0x200A; 0x2028; 0x2029; 0x202F; 0x205F; 0x3000]%N.

(** The whitespace characters, encoded. *)
Definition whitespace : list string := map utf8_encode whitespace_code_points.

(** [s.startswith(w)] *)
Fixpoint starts_with (w s : string) : bool :=
  match w, s with
  | EmptyString, _ => true
  | String a w', String b s' => Ascii.eqb a b && starts_with w' s'
  | String _ _, EmptyString => false
  end.

(** The number of bytes of the whitespace character that [s] begins
    with, and 0 when it begins with none. *)
Definition space_width (s : string) : nat :=
  match find (fun w => starts_with w s) whitespace with
  | Some w => String.length w
  | None => 0
  end.

Definition starts_word (s : string) : bool :=
  match s with
  | EmptyString => false
  | String _ _ => Nat.eqb (space_width s) 0
  end.

(** The scan of [s.split()]: [skip] bytes of a whitespace character are
    still to be passed over; after them, a whitespace character is passed
    over whole and any other byte goes to the word being read. *)
Fixpoint str_split_from (skip : nat) (s : string) : list string :=
  match s with
  | EmptyString => []
  | String c s' =>
      match skip with
      | S k => str_split_from k s'
      | O =>
          match space_width s with
          | S k => str_split_from k s'
          | O =>
              if starts_word s' then
                match str_split_from 0 s' with
                | w :: ws => String c w :: ws
                | [] => [String c EmptyString]
                end
              else String c EmptyString :: str_split_from 0 s'
          end
      end
  end.

(** [s.split()]: the maximal runs of non-whitespace characters of [s]. *)
Definition str_split (s : string) : list string := str_split_from 0 s.

(** [sep.join(words)] *)
Fixpoint str_join (sep : string) (words : list string) : string :=
  match words with
  | [] => ""
  | [w] => w
  | w :: ws => w +:+ sep +:+ str_join sep ws
  end.

(** ** The workbook reader's data *)

(** A cell as the reader exposes it: [value], [is_date], [data_type]. *)
Record Cell : Type := mkCell {
  value : raw_value;
  is_date : bool;
  data_type : string
}.

(** A row is the tuple of its cells. *)
Abbreviation Row := (list Cell).

(** A worksheet; [sheet_rows] is the sequence that [sheet.rows] iterates,
    restarted from the first row at every use. *)
Record Worksheet : Type := mkSheet {
  title : string;
  sheet_rows : list Row
}.

Record Workbook : Type := mkBook {
  worksheets : list Worksheet
}.

(** The type tags of [openpyxl.cell.Cell]. *)
Definition TYPE_STRING : string := "s".
Definition TYPE_FORMULA : string := "f".
Definition TYPE_NUMERIC : string := "n".
Definition TYPE_BOOL : string := "b".
Definition TYPE_INLINE : string := "inlineStr".
Definition TYPE_FORMULA_CACHE_STRING : string := "str".

(** The dictionary literal [CELL_TYPES]; entries are inserted in the order
    they are written, a later one replacing an earlier one with its key. *)
Definition CELL_TYPES : gmap string string :=
  <[TYPE_FORMULA_CACHE_STRING := "string"]>
  (<[TYPE_INLINE := "string"]>
  (<[TYPE_BOOL := "boolean"]>
  (<[TYPE_NUMERIC := "float"]>
  (<[TYPE_FORMULA := "unknown"]>
  (<[TYPE_STRING := "string"]> ∅))))).

(** [d.get(key, default)] *)
Definition dict_get {V} (d : gmap string V) (key : string) (default : V) : V :=
  match d !! key with
  | Some v => v
  | None => default
  end.

(** ** Field lists *)

(** Modelled from the spec: [bubbles.metadata.Field], of which only the
    name and the storage type are set here. *)
Record Field : Type := mkField {
  name : string;
  storage_type : string
}.

(** Modelled from the spec: [bubbles.metadata.FieldList], an ordered list
    of fields that keeps duplicates; [append] adds at the end, [len] is
    the number of fields and an empty list is falsy. *)
Definition FieldList : Type := list Field.

Definition FieldList_append (fields : FieldList) (field : Field) : FieldList :=
  (fields ++ [field])%list.

(** ** Iterator helpers *)

(** [enumerate(xs, start)] *)
Fixpoint enumerate_from {A} (start : Z) (xs : list A) : list (Z * A) :=
  match xs with
  | [] => []
  | x :: xs' => (start, x) :: enumerate_from (start + 1) xs'
  end.

Definition enumerate {A} (xs : list A) : list (Z * A) := enumerate_from 0 xs.

(** [itertools.dropwhile] *)
Fixpoint dropwhile {A} (p : A -> bool) (xs : list A) : list A :=
  match xs with
  | [] => []
  | x :: xs' => if p x then dropwhile p xs' else xs
  end.

(** [sum(xs)] *)
Definition py_sum (xs : list Z) : Z := fold_left Z.add xs 0.

(** [next(it)] on a fresh iterator: its first element, or [StopIteration]. *)
Definition next_item {A} (xs : list A) : result A :=
  match xs with
  | [] => Raise StopIteration
  | x :: _ => Ok x
  end.

(** [xs[i]] on a Python list, negative indices counting from the end. *)
Definition list_getitem {A} (xs : list A) (i : Z) : result A :=
  let n := Z.of_nat (length xs) in
  let j := if i <? 0 then i + n else i in
  if (0 <=? j) && (j <? n) then
    match xs !! Z.to_nat j with
    | Some x => Ok x
    | None => Raise IndexError
    end
  else Raise IndexError.

(** [workbook[name]]: the first sheet with that title, else the reader's
    [KeyError("Worksheet {0} does not exist.".format(name))]. *)
Definition workbook_getitem (wb : Workbook) (key : string) : result Worksheet :=
  match List.find (fun ws => String.eqb (title ws) key) (worksheets wb) with
  | Some ws => Ok ws
  | None => Raise (KeyError ("Worksheet " +:+ key +:+ " does not exist."))
  end.

(** The [sheet] argument: an [int], a [str], or anything else. *)
Inductive selector : Type :=
  | SheetIndex (i : Z)
  | SheetName (s : string)
  | SheetOther.

Section Extractor.

(** [str] of a float is the interpreter's shortest round-trip rendering;
    it is not computed here but taken as given. *)
Variable float_str : float -> string.

(** [str(v)] *)
Definition py_str (v : raw_value) : string :=
  match v with
  | VNone => "None"
  | VBool true => "True"
  | VBool false => "False"
  | VInt n => pretty n
  | VFloat f => float_str f
  | VStr s => s
  | VDate iso => iso
  end.

(** ** XLSXObject *)

Record XLSXObject : Type := mkObject {
  workbook : Workbook;
  sheet : Worksheet;
  first_row : Z;
  stop_empty_line : bool;
  fields : FieldList
}.

(** The storage type given to one cell of the reference row. *)
Definition cell_storage_type (cell : Cell) : string :=
  if is_date cell then "date"
  else dict_get CELL_TYPES (data_type cell) "unknown".

(** [names] when [has_header] is set. *)
Definition header_names (header_row : Row) : list string :=
  map (fun c => str_join " " (str_split (py_str (value c)))) header_row.

(** [names] otherwise: ['col%d' % i for i in range(len(first_row))]. *)
Definition column_names (first_row : Row) : list string :=
  map (fun i : nat => "col" +:+ pretty (Z.of_nat i)) (seq 0 (length first_row)).

(** The loop over [zip(names, first_row)], appending one field per pair. *)
Fixpoint append_fields (acc : FieldList) (pairs : list (string * Cell)) : FieldList :=
  match pairs with
  | [] => acc
  | (name, cell) :: rest =>
      append_fields (FieldList_append acc (mkField name (cell_storage_type cell))) rest
  end.

(** The [else] branch of [if fields:], run on the selected sheet. *)
Definition infer_fields (sh : Worksheet) (first_row : Z) (has_header : bool)
  : result FieldList :=
  let rows := enumerate (sheet_rows sh) in
  let! (_, first) := next_item (dropwhile (fun x => fst x <? first_row) rows) in
  let! names :=
    if has_header then
      let header_rows := enumerate (sheet_rows sh) in
      let! (_, header_row) :=
        next_item (dropwhile (fun x => fst x <? first_row - 1) header_rows) in
      Ok (header_names header_row)
    else Ok (column_names first) in
  Ok (append_fields [] (zip names first)).

(** The [isinstance] cascade on [sheet]. *)
Definition select_sheet (wb : Workbook) (sheet : selector) : result Worksheet :=
  match sheet with
  | SheetIndex i => list_getitem (worksheets wb) i
  | SheetName s => workbook_getitem wb s
  | SheetOther => Raise (ArgumentError "sheet has to be a string or an integer")
  end.

(** [XLSXObject.__init__], called with a workbook as [resource]. *)
Definition __init__ (resource : Workbook) (fields : option FieldList)
    (sheet : selector) (encoding : option string) (skip_rows : Z)
    (has_header stop_empty_line : bool) : result XLSXObject :=
  let! sh := select_sheet resource sheet in
  let first_row := if has_header then skip_rows + 1 else skip_rows in
  let! fl :=
    match fields with
    | Some ((_ :: _) as given) => Ok given
    | _ (* [None] and an empty list are both falsy *) =>
        infer_fields sh first_row has_header
    end in
  Ok (mkObject resource sh first_row stop_empty_line fl).

(** [sum([1 for _ in self.sheet.rows])] *)
Definition _nrows (self : XLSXObject) : Z :=
  py_sum (map (fun _ => 1) (sheet_rows (sheet self))).

Definition __len__ (self : XLSXObject) : Z :=
  _nrows self - first_row self.

(** [sys.maxsize], the largest length the interpreter can return (on a
    64-bit build). *)
Definition sys_maxsize : Z := 2 ^ 63 - 1.

(** The builtin [len(self)]: it refuses a negative [__len__], then one
    that does not fit the interpreter's size type. *)
Definition len (self : XLSXObject) : result Z :=
  let n := __len__ self in
  if n <? 0 then Raise (ValueError "__len__() should return >= 0")
  else if sys_maxsize <? n then
    Raise (OverflowError "cannot fit 'int' into an index-sized integer")
  else Ok n.

(** ** The [rows] generator *)

(** A generator object of [rows]: created and not yet started, suspended
    at the [yield] inside the loop, or finished. *)
Inductive generator : Type :=
  | Created (self : XLSXObject)
  | Suspended (stop_empty : bool) (field_count : nat) (rows : list (Z * Row))
  | Finished.

(** What one [next] on a generator gives. *)
Inductive outcome : Type :=
  | Yielded (values : list raw_value)
  | Stopped
  | Raised (e : exn).

(** Calling [rows()] only creates the generator; the body runs on [next]. *)
Definition rows (self : XLSXObject) : generator := Created self.

(** [values = [c.value for c in row[:field_count]]] *)
Definition row_values (field_count : nat) (row : Row) : list raw_value :=
  map value (take field_count row).

(** One turn of [for _, row in rows], up to the next [yield]. *)
Definition resume (stop_empty : bool) (field_count : nat)
    (rows : list (Z * Row)) : outcome * generator :=
  match rows with
  | [] => (Stopped, Finished)
  | (_, row) :: rest =>
      let values := row_values field_count row in
      if stop_empty && negb (any values) then (Stopped, Finished)
      else (Yielded values, Suspended stop_empty field_count rest)
  end.

(** [next(g)] *)
Definition next (g : generator) : outcome * generator :=
  match g with
  | Created self =>
      let stop_empty := stop_empty_line self in
      match fields self with
      | [] => (Raised (RuntimeError "Fields are not initialized"), Finished)
      | _ :: _ =>
          let field_count := length (fields self) in
          let rows := enumerate (sheet_rows (sheet self)) in
          let rows := dropwhile (fun x => fst x <? first_row self) rows in
          resume stop_empty field_count rows
      end
  | Suspended stop_empty field_count rows => resume stop_empty field_count rows
  | Finished => (Stopped, Finished)
  end.

(** Everything the loop yields from the rows still ahead of it. *)
Fixpoint drain (stop_empty : bool) (field_count : nat)
    (rows : list (Z * Row)) : list (list raw_value) :=
  match rows with
  | [] => []
  | (_, row) :: rest =>
      let values := row_values field_count row in
      if stop_empty && negb (any values) then []
      else values :: drain stop_empty field_count rest
  end.

(** [list(g)]: the generator pulled until it stops or raises. *)
Definition to_list (g : generator) : result (list (list raw_value)) :=
  match g with
  | Created self =>
      match fields self with
      | [] => Raise (RuntimeError "Fields are not initialized")
      | _ :: _ =>
          Ok (drain (stop_empty_line self) (length (fields self))
                (dropwhile (fun x => fst x <? first_row self)
                   (enumerate (sheet_rows (sheet self)))))
      end
  | Suspended stop_empty field_count rows => Ok (drain stop_empty field_count rows)
  | Finished => Ok []
  end.

(** The generator after [n] calls of [next]. *)
Fixpoint advance (n : nat) (g : generator) : generator :=
  match n with
  | O => g
  | S n' => advance n' (snd (next g))
  end.

(** ** The [records] generator *)

(** Modelled from the spec: [FieldList.names()], the names of the fields
    in order. *)
Definition FieldList_names (fields : FieldList) : list string := map name fields.

(** [dict(pairs)]: the pairs are entered in order, so that of two pairs
    with one key the later one stays. *)
Definition py_dict {V} (pairs : list (string * V)) : gmap string V :=
  fold_left (fun d kv => <[fst kv := snd kv]> d) pairs ∅.

(** A generator object of [records]: not started, suspended at its
    [yield] with the names it read and the [rows] generator it iterates,
    or finished. *)
Inductive record_generator : Type :=
  | RCreated (self : XLSXObject)
  | RSuspended (fields : list string) (inner : generator)
  | RFinished.

Inductive record_outcome : Type :=
  | RYielded (record : gmap string raw_value)
  | RStopped
  | RRaised (e : exn).

Definition records (self : XLSXObject) : record_generator := RCreated self.

(** One turn of [for row in self.rows()], up to the next [yield]. *)
Definition resume_records (fields : list string) (inner : generator)
  : record_outcome * record_generator :=
  match next inner with
  | (Yielded row, inner') =>
      (RYielded (py_dict (zip fields row)), RSuspended fields inner')
  | (Stopped, _) => (RStopped, RFinished)
  | (Raised e, _) => (RRaised e, RFinished)
  end.

(** [next(g)] on a generator of [records]. *)
Definition next_record (g : record_generator)
  : record_outcome * record_generator :=
  match g with
  | RCreated self =>
      let fields := FieldList_names (fields self) in
      resume_records fields (rows self)
  | RSuspended fields inner => resume_records fields inner
  | RFinished => (RStopped, RFinished)
  end.

(** The generator of [records] after [n] calls of [next]. *)
Fixpoint advance_records (n : nat) (g : record_generator) : record_generator :=
  match n with
  | O => g
  | S n' => advance_records n' (snd (next_record g))
  end.

Definition representations (self : XLSXObject) : list string :=
  ["rows"; "records"].

Definition is_consumable (self : XLSXObject) : bool := false.

End Extractor.

(** ** XLSXStore *)

Section Store.

(** Opening a workbook is the reader's business. *)
Variable Resource : Type.
Variable _load_workbook : Resource -> result Workbook.
Variable float_str : float -> string.

Record XLSXStore : Type := mkStore {
  resource : Resource;
  encoding : option string;
  _book : option Workbook
}.

(** [XLSXStore.__init__]: nothing is opened yet. *)
Definition XLSXStore_init (resource : Resource) (encoding : option string)
  : XLSXStore :=
  mkStore resource encoding None.

(** The [book] property: load on first use, then reuse. *)
Definition book (self : XLSXStore) : result Workbook * XLSXStore :=
  match _book self with
  | Some b => (Ok b, self)
  | None =>
      match _load_workbook (resource self) with
      | Ok b => (Ok b, mkStore (resource self) (encoding self) (Some b))
      | Raise e => (Raise e, self)
      end
  end.

Definition get_object (self : XLSXStore) (name : selector) (skip_rows : Z)
    (has_header stop_empty_line : bool) (fields : option FieldList)
  : result XLSXObject * XLSXStore :=
  let (b, self) := book self in
  (let! b := b in
   __init__ float_str b fields name (encoding self) skip_rows has_header
     stop_empty_line, self).

(** The [resource] argument of [XLSXObject]: a workbook, or anything
    else, which is then handed to the loader. *)
Inductive resource_arg : Type :=
  | IsWorkbook (wb : Workbook)
  | ToLoad (r : Resource).

(** [XLSXObject(resource, ...)] from its first line: a workbook is used
    as it is, any other resource is loaded first, and the rest of
    [__init__] runs on the workbook. *)
Definition new_XLSXObject (resource : resource_arg)
    (fields : option FieldList) (sheet : selector) (encoding : option string)
    (skip_rows : Z) (has_header stop_empty_line : bool) : result XLSXObject :=
  let! wb :=
    match resource with
    | IsWorkbook wb => Ok wb
    | ToLoad r => _load_workbook r
    end in
  __init__ float_str wb fields sheet encoding skip_rows has_header
    stop_empty_line.

(** [object_names]: the reader's [get_sheet_names()], the titles of the
    sheets in workbook order. *)
Definition object_names (self : XLSXStore) : result (list string) * XLSXStore :=
  let (b, self) := book self in
  (let! b := b in Ok (map title (worksheets b)), self).

(** [create] raises before touching anything; the store comes back as it
    was. *)
Definition create (self : XLSXStore) (name : string) : result unit * XLSXStore :=
  (Raise (BubblesError "XLSX store is read-only"), self).

End Store.

Arguments resource {Resource} _.
Arguments encoding {Resource} _.
Arguments _book {Resource} _.
Arguments create {Resource} self name.
Arguments XLSXStore_init {Resource} resource encoding.
Arguments mkStore {Resource} resource encoding _book.
Arguments book {Resource} _load_workbook self.
Arguments get_object {Resource} _load_workbook float_str self name skip_rows
  has_header stop_empty_line fields.
Arguments object_names {Resource} _load_workbook self.
Arguments IsWorkbook {Resource} wb.
Arguments ToLoad {Resource} r.
Arguments new_XLSXObject {Resource} _load_workbook float_str resource fields
  sheet encoding skip_rows has_header stop_empty_line.

(** ** Reference definitions, in the words of the specification *)

(** The storage type table as the specification spells it out. *)
Definition spec_storage_type (date_flag : bool) (tag : string) : string :=
  if date_flag then "date"
  else if decide (tag = TYPE_STRING) then "string"
  else if decide (tag = TYPE_FORMULA) then "unknown"
  else if decide (tag = TYPE_NUMERIC) then "float"
  else if decide (tag = TYPE_BOOL) then "boolean"
  else if decide (tag = TYPE_INLINE) then "string"
  else if decide (tag = TYPE_FORMULA_CACHE_STRING) then "string"
  else "unknown".

(** An empty value: null, the empty string, zero, or false. *)
Definition is_empty_value (v : raw_value) : bool :=
  match v with
  | VNone => true
  | VStr s => bool_decide (s = "")
  | VInt n => bool_decide (n = 0)
  | VFloat f => PrimFloat.eqb f 0%float
  | VBool b => negb b
  | VDate _ => false
  end.

(** The rows at or past index [first_row], the data body of the sheet. *)
Definition in_scope (self : XLSXObject) : list Row :=
  drop (Z.to_nat (first_row self)) (sheet_rows (sheet self)).

(** A text as the sequence of its characters, each one in its encoding;
    the text itself is their concatenation. *)
Definition concat_chars (chars : list string) : string :=
  fold_right String.append "" chars.

(** The length of a UTF-8 sequence as its first byte announces it (0 for
    a byte that cannot come first). *)
Definition char_len (b : ascii) : nat :=
  let n := N_of_ascii b in
  if (n <? 0x80)%N then 1%nat
  else if (n <? 0xC0)%N then 0%nat
  else if (n <? 0xE0)%N then 2%nat
  else if (n <? 0xF0)%N then 3%nat
  else if (n <? 0xF8)%N then 4%nat
  else 0%nat.

Definition is_continuation (b : ascii) : bool :=
  let n := N_of_ascii b in ((0x80 <=? n) && (n <? 0xC0))%N.

Fixpoint all_continuation (s : string) : bool :=
  match s with
  | EmptyString => true
  | String b s' => is_continuation b && all_continuation s'
  end.

(** One encoded character: a first byte, followed by as many continuation
    bytes as it announces. *)
Definition is_char (c : string) : bool :=
  match c with
  | EmptyString => false
  | String b rest =>
      Nat.eqb (String.length c) (char_len b) && all_continuation rest
  end.

(** A character that is not whitespace. *)
Definition is_word_char (c : string) : Prop :=
  is_char c = true /\ c ∉ whitespace.

(** A word: one or more characters, none of them whitespace. *)
Definition is_word (w : list string) : Prop :=
  w <> [] /\ Forall is_word_char w.

(** A separator: one or more whitespace characters. *)
Definition is_separator (sep : list string) : Prop :=
  sep <> [] /\ Forall (fun c => c ∈ whitespace) sep.

(** A blank text: whitespace characters only, possibly none. *)
Definition is_blank (s : string) : Prop :=
  exists bs : list string,
    Forall (fun c => c ∈ whitespace) bs /\ s = concat_chars bs.

(** The characters of the words that follow the first one, each after
    its separator. *)
Definition separated (more : list (list string * list string)) : list string :=
  flat_map (fun p => (fst p ++ snd p)%list) more.

(** A text with words in it: leading whitespace, a first word, further
    words each after a separator, trailing whitespace. *)
Definition assemble (lead first : list string)
    (more : list (list string * list string)) (trail : list string) : string :=
  concat_chars (lead ++ first ++ separated more ++ trail)%list.

(** A printable ASCII character other than the space. *)
Definition is_graphic (b : ascii) : bool :=
  let n := N_of_ascii b in ((0x21 <=? n) && (n <? 0x7F))%N.

Fixpoint all_graphic (s : string) : bool :=
  match s with
  | EmptyString => true
  | String b s' => is_graphic b && all_graphic s'
  end.

(** What [split] gives for a run [u] of word bytes followed by [T]: [u]
    opens the first word of [T] when [T] begins inside a word, and is a
    word of its own otherwise. *)
Definition glue (u T : string) : list string :=
  if starts_word T then
    match str_split T with
    | w :: ws => (u +:+ w) :: ws
    | [] => [u]
    end
  else u :: str_split T.

(** ** Sample sheets *)

Definition str_cell (s : string) : Cell := mkCell (VStr s) false TYPE_STRING.
Definition num_cell (f : float) : Cell := mkCell (VFloat f) false TYPE_NUMERIC.
Definition blank_cell : Cell := mkCell VNone false TYPE_NUMERIC.

(** A header and two data rows. *)
Definition scores : Worksheet :=
  mkSheet "scores"
    [ [str_cell "Name"; str_cell "Score "];
      [str_cell "Ann"; num_cell 9.5];
      [str_cell "Bo"; num_cell 8] ].

(** The same with a third data row that has a single cell. *)
Definition ragged : Worksheet :=
  mkSheet "ragged" (sheet_rows scores ++ [[str_cell "Cy"]])%list.

(** A blank row between two data rows. *)
Definition gapped : Worksheet :=
  mkSheet "gapped"
    [ [str_cell "Name"; str_cell "Score "];
      [str_cell "Ann"; num_cell 9.5];
      [blank_cell; blank_cell];
      [str_cell "Bo"; num_cell 8] ].

(** A header whose second cell holds a single space, and one data row. *)
Definition unnamed : Worksheet :=
  mkSheet "unnamed"
    [ [str_cell "Name"; str_cell " "];
      [str_cell "Ann"; num_cell 9.5] ].

(** A header above a data row that has no cells. *)
Definition hollow : Worksheet :=
  mkSheet "hollow" [ [str_cell "Name"]; [] ].

Definition sample_book : Workbook :=
  mkBook [scores; ragged; gapped; unnamed; hollow; mkSheet "empty" []].

(** Some rendering of floats, for running the constructor on the samples. *)
Definition sample_float_str (f : float) : string :=
  if PrimFloat.eqb f 9.5%float then "9.5" else "8.0".

(** The extractors that the constructor builds over [ragged] and [gapped]
    with a header, the second one stopping at an empty line. *)
Definition ragged_object : XLSXObject :=
  mkObject sample_book ragged 1 false
    [mkField "Name" "string"; mkField "Score" "float"].

Definition gapped_object : XLSXObject :=
  mkObject sample_book gapped 1 true
    [mkField "Name" "string"; mkField "Score" "float"].

(** The extractor over the sheet without rows, built with a header and a
    given field list. *)
Definition rowless_object : XLSXObject :=
  mkObject sample_book (mkSheet "empty" []) 1 false [mkField "who" "string"].

(** A header cell whose text has a leading space, the words [Prix], a
    small a with grave accent and [payer], parted by a space with a
    no-break space and by a tab, and a trailing em space. *)
Definition wrapped_header : Cell :=
  str_cell (" Prix " +:+ utf8_encode 0xA0 +:+ utf8_encode 0xE0
            +:+ utf8_encode 0x9 +:+ "payer" +:+ utf8_encode 0x2003).

(** * Properties *)

(** C8: every [create(name)] fails with the error labelled as a read-only
    store violation, and the store is left exactly as it was. *)
Theorem create_read_only :
  forall (Resource : Type) (self : XLSXStore Resource) (name : string),
    create self name = (Raise (BubblesError "XLSX store is read-only"), self).
Proof. intros Resource self name. reflexivity. Qed.

(** ** Iterators *)

Lemma dropwhile_enumerate_from {A} (k : Z) (xs : list A) :
  forall start : Z,
    dropwhile (fun x => fst x <? k) (enumerate_from start xs)
    = enumerate_from (Z.max start k) (drop (Z.to_nat (k - start)) xs).
Proof.
  induction xs as [|x xs IH]; intros start; simpl.
  - by rewrite drop_nil.
  - destruct (Z.ltb_spec start k) as [Hlt|Hge].
    + rewrite IH.
      replace (Z.to_nat (k - start)) with (S (Z.to_nat (k - (start + 1)))) by lia.
      simpl. f_equal. lia.
    + replace (Z.to_nat (k - start)) with 0%nat by lia.
      simpl. replace (Z.max start k) with start by lia. reflexivity.
Qed.

Lemma dropwhile_enumerate {A} (k : Z) (xs : list A) :
  dropwhile (fun x => fst x <? k) (enumerate xs)
  = enumerate_from (Z.max 0 k) (drop (Z.to_nat k) xs).
Proof.
  unfold enumerate. rewrite dropwhile_enumerate_from.
  by rewrite Z.sub_0_r.
Qed.

Lemma next_item_scoped {A} (k : Z) (xs : list A) :
  next_item (dropwhile (fun x => fst x <? k) (enumerate xs))
  = match xs !! Z.to_nat k with
    | Some x => Ok (Z.max 0 k, x)
    | None => Raise StopIteration
    end.
Proof.
  rewrite dropwhile_enumerate.
  replace (xs !! Z.to_nat k) with (drop (Z.to_nat k) xs !! 0%nat)
    by (rewrite lookup_drop; f_equal; lia).
  by destruct (drop (Z.to_nat k) xs).
Qed.

Lemma py_sum_ones {A} (xs : list A) :
  py_sum (map (fun _ => 1) xs) = Z.of_nat (length xs).
Proof.
  unfold py_sum.
  enough (H : forall acc, fold_left Z.add (map (fun _ : A => 1) xs) acc
                     = acc + Z.of_nat (length xs)) by (rewrite H; lia).
  induction xs as [|x xs IH]; intros acc; simpl.
  - lia.
  - rewrite IH. lia.
Qed.

(** ** The loop of [rows] *)

Lemma drain_all (field_count : nat) (xs : list Row) :
  forall start, drain false field_count (enumerate_from start xs)
                = map (row_values field_count) xs.
Proof.
  induction xs as [|row xs IH]; intros start; simpl; [done|].
  by rewrite IH.
Qed.

Lemma drain_until (field_count : nat) (pre post : list Row) (row : Row) :
  Forall (fun r => any (row_values field_count r) = true) pre ->
  any (row_values field_count row) = false ->
  forall start,
    drain true field_count (enumerate_from start (pre ++ row :: post)%list)
    = map (row_values field_count) pre.
Proof.
  intros Hpre Hrow. induction Hpre as [|r pre Hr _ IH]; intros start; simpl.
  - by rewrite Hrow.
  - rewrite Hr. simpl. by rewrite IH.
Qed.

Lemma drain_lookup (stop_empty : bool) (field_count : nat) (xs : list Row) :
  forall start (j : nat) (t : list raw_value),
    drain stop_empty field_count (enumerate_from start xs) !! j = Some t ->
    exists row, xs !! j = Some row /\ t = row_values field_count row.
Proof.
  induction xs as [|row xs IH]; intros start j t; simpl; [done|].
  destruct (stop_empty && negb (any (row_values field_count row))); [done|].
  destruct j as [|j]; simpl.
  - intros [= <-]. eauto.
  - apply IH.
Qed.

(** Pulling with [next] and collecting with [to_list] agree. *)
Lemma to_list_next (g : generator) :
  to_list g
  = match next g with
    | (Yielded values, g') => let! rest := to_list g' in Ok (values :: rest)
    | (Stopped, _) => Ok []
    | (Raised e, _) => Raise e
    end.
Proof.
  assert (Hresume : forall se fc rs,
    Ok (drain se fc rs)
    = match resume se fc rs with
      | (Yielded values, g') => let! rest := to_list g' in Ok (values :: rest)
      | (Stopped, _) => Ok []
      | (Raised e, _) => Raise e
      end).
  { intros se fc [|[i row] rs]; simpl; [done|].
    by destruct (se && negb (any (row_values fc row))). }
  destruct g as [self|se fc rs|]; simpl; [|apply Hresume|done].
  destruct (fields self); [done|]. apply Hresume.
Qed.

(** ** Storage types *)

(** C2: the storage type inferred for a cell of the reference row is
    [date] when its date flag is set, whatever its type tag; otherwise it
    is what the fixed table gives for the tag, and [unknown] for a tag that
    is not in the table.  The fields built from the reference row carry
    these types in order. *)
Theorem storage_type_table :
  (forall cell : Cell,
     cell_storage_type cell = spec_storage_type (is_date cell) (data_type cell))
  /\ (forall (names : list string) (row : Row),
        map storage_type (append_fields [] (zip names row))
        = map (fun c => spec_storage_type (is_date c) (data_type c))
            (take (length names) row)).
Proof.
  assert (Hcell : forall cell : Cell,
    cell_storage_type cell = spec_storage_type (is_date cell) (data_type cell)).
  { intros [v d tag]. unfold cell_storage_type, spec_storage_type; simpl.
    destruct d; [done|].
    unfold dict_get, CELL_TYPES.
    repeat (case_decide; [subst tag; vm_compute; reflexivity|]).
    by rewrite !lookup_insert_ne, lookup_empty by congruence. }
  split; [exact Hcell|].
  intros names row.
  enough (H : forall acc, map storage_type (append_fields acc (zip names row))
    = (map storage_type acc
       ++ map (fun c => spec_storage_type (is_date c) (data_type c))
            (take (length names) row))%list) by apply (H []).
  revert row. induction names as [|n names IH]; intros row acc; simpl.
  - by rewrite app_nil_r.
  - destruct row as [|c row]; simpl; [by rewrite app_nil_r|].
    rewrite IH. unfold FieldList_append. rewrite map_app; simpl.
    by rewrite <- app_assoc, Hcell.
Qed.

(** ** Length *)

(** [_nrows] counts every row once. *)
Lemma len_is_rows_minus_first_row_aux (self : XLSXObject) :
  __len__ self = Z.of_nat (length (sheet_rows (sheet self))) - first_row self.
Proof. unfold __len__, _nrows. by rewrite py_sum_ones. Qed.

Lemma len_in_range (self : XLSXObject) :
  0 <= __len__ self <= sys_maxsize -> len self = Ok (__len__ self).
Proof.
  intros Hrange. unfold len.
  destruct (Z.ltb_spec (__len__ self) 0); [lia|].
  by destruct (Z.ltb_spec sys_maxsize (__len__ self)); [lia|].
Qed.

(** C5, as the code has it: [__len__] is the number of physical rows of
    the sheet, all of them counted, minus the first row index;
    [len(extractor)] returns exactly this number whenever it lies between
    0 and [sys.maxsize], raises [ValueError] when it is negative and
    [OverflowError] when it is larger. *)
Theorem len_is_rows_minus_first_row :
  forall (self : XLSXObject) (n : Z),
    n = Z.of_nat (length (sheet_rows (sheet self))) - first_row self ->
    __len__ self = n
    /\ (0 <= n <= sys_maxsize -> len self = Ok n)
    /\ (n < 0 ->
        len self = Raise (ValueError "__len__() should return >= 0"))
    /\ (sys_maxsize < n ->
        len self
        = Raise (OverflowError "cannot fit 'int' into an index-sized integer")).
Proof.
  intros self n ->.
  assert (Hlen : __len__ self
                 = Z.of_nat (length (sheet_rows (sheet self))) - first_row self).
  { unfold __len__, _nrows. rewrite py_sum_ones. reflexivity. }
  rewrite <- Hlen. split; [reflexivity|].
  unfold len. split; [|split]; intros Hn.
  - destruct (Z.ltb_spec (__len__ self) 0); [lia|].
    by destruct (Z.ltb_spec sys_maxsize (__len__ self)); [lia|].
  - by destruct (Z.ltb_spec (__len__ self) 0); [|lia].
  - assert (0 < sys_maxsize) by done.
    destruct (Z.ltb_spec (__len__ self) 0); [lia|].
    by destruct (Z.ltb_spec sys_maxsize (__len__ self)); [|lia].
Qed.

(** [ragged] has four rows, the first of them the header. *)
Lemma len_is_rows_minus_first_row_witness :
  __len__ ragged_object = 3
  /\ (0 <= 3 <= sys_maxsize -> len ragged_object = Ok 3)
  /\ (3 < 0 ->
      len ragged_object = Raise (ValueError "__len__() should return >= 0"))
  /\ (sys_maxsize < 3 ->
      len ragged_object
      = Raise (OverflowError "cannot fit 'int' into an index-sized integer")).
Proof.
  apply (len_is_rows_minus_first_row ragged_object 3). reflexivity.
Defined.

(** C5 fails when the number is negative or too large: over the sheet
    without rows, read with a header and a given field list, [__len__] is
    -1 and [len] raises [ValueError]; with 2^63 rows "skipped" backwards
    [__len__] exceeds [sys.maxsize] and [len] raises [OverflowError]. *)
Lemma len_outside_range_fails :
  __init__ sample_float_str sample_book (Some [mkField "who" "string"])
    (SheetName "empty") None 0 true false = Ok rowless_object
  /\ __len__ rowless_object = -1
  /\ len rowless_object = Raise (ValueError "__len__() should return >= 0")
  /\ (let! self := __init__ sample_float_str sample_book None
                     (SheetName "scores") None (- 2 ^ 63) false false in
      len self)
     = Raise (OverflowError "cannot fit 'int' into an index-sized integer")
  /\ ~ (forall self : XLSXObject,
          len self
          = Ok (Z.of_nat (length (sheet_rows (sheet self))) - first_row self)).
Proof.
  split; [reflexivity|]. split; [reflexivity|]. split; [reflexivity|].
  split; [reflexivity|].
  intros H. specialize (H rowless_object). discriminate H.
Qed.

(** Over an extractor whose fields were inferred there is a reference
    row, so [__len__] is positive: the builtin [len] never refuses it as
    negative, and reports it whenever it is at most [sys.maxsize]. *)
Lemma len_of_inferred (float_str : float -> string) (wb : Workbook)
    (sel : selector) (enc : option string) (skip_rows : Z)
    (has_header stop_empty : bool) (self : XLSXObject) :
  __init__ float_str wb None sel enc skip_rows has_header stop_empty = Ok self ->
  __len__ self <= sys_maxsize ->
  0 < __len__ self /\ len self = Ok (__len__ self).
Proof.
  intros Hinit Hmax.
  assert (Hpos : 0 < __len__ self).
  { rewrite len_is_rows_minus_first_row_aux.
    unfold __init__, bind in Hinit.
    destruct (select_sheet wb sel) as [sh|]; [|done].
    destruct (infer_fields _ _ _ _) as [fl|] eqn:Hinfer; [|done].
    injection Hinit as <-. simpl.
    unfold infer_fields in Hinfer. rewrite next_item_scoped in Hinfer.
    destruct (sheet_rows sh !! _) eqn:Href; [|done].
    apply lookup_lt_Some in Href. lia. }
  split; [done|]. apply len_in_range. lia.
Qed.

(** ** Row extraction *)

Lemma truthy_not_empty (v : raw_value) : truthy v = negb (is_empty_value v).
Proof.
  destruct v as [|b|n|f|s|iso]; simpl; try done.
  - by destruct b.
  - by destruct n.
  - by destruct s.
Qed.

Lemma any_false_iff (values : list raw_value) :
  any values = false <-> Forall (fun v => is_empty_value v = true) values.
Proof.
  unfold any. induction values as [|v values IH]; simpl.
  - split; [constructor|done].
  - rewrite orb_false_iff, IH, Forall_cons, truthy_not_empty, negb_false_iff.
    reflexivity.
Qed.

Lemma any_true_iff (values : list raw_value) :
  any values = true <-> Exists (fun v => is_empty_value v = false) values.
Proof.
  unfold any. induction values as [|v values IH]; simpl.
  - split; [done|by intros ?%Exists_nil].
  - rewrite orb_true_iff, IH, Exists_cons, truthy_not_empty, negb_true_iff.
    reflexivity.
Qed.

Lemma to_list_rows (self : XLSXObject) :
  fields self <> [] ->
  to_list (rows self)
  = Ok (drain (stop_empty_line self) (length (fields self))
          (enumerate_from (Z.max 0 (first_row self)) (in_scope self))).
Proof.
  intros Hfields. unfold rows, to_list, in_scope.
  destruct (fields self) eqn:E; [done|].
  by rewrite dropwhile_enumerate.
Qed.

Lemma to_list_rows_Ok (self : XLSXObject) (out : list (list raw_value)) :
  to_list (rows self) = Ok out -> fields self <> [].
Proof. unfold rows, to_list. by destruct (fields self). Qed.

Lemma row_values_length (field_count : nat) (row : Row) :
  length (row_values field_count row) = Nat.min field_count (length row).
Proof. unfold row_values. by rewrite length_map, length_take. Qed.

(** C1, as the code has it: every tuple that [rows()] yields holds the
    values of the first [field_count] cells of its row and nothing else.
    Its width is the smaller of [field_count] and the width of the row: the
    cells past [field_count] are dropped, and a row with fewer cells gives
    a shorter tuple. *)
Theorem rows_tuple_width :
  forall (self : XLSXObject) (out : list (list raw_value)) (j : nat)
         (t : list raw_value),
    to_list (rows self) = Ok out ->
    out !! j = Some t ->
    exists row : Row,
      in_scope self !! j = Some row
      /\ t = map value (take (length (fields self)) row)
      /\ length t = Nat.min (length (fields self)) (length row).
Proof.
  intros self out j t Hout Hj.
  rewrite to_list_rows in Hout by (by eapply to_list_rows_Ok).
  injection Hout as <-.
  apply drain_lookup in Hj as (row & Hrow & ->).
  exists row. split; [done|]. split; [done|]. apply row_values_length.
Qed.

(** The third data row of [ragged], the one with a single cell. *)
Lemma rows_tuple_width_witness :
  exists row : Row,
    in_scope ragged_object !! 2%nat = Some row
    /\ [VStr "Cy"] = map value (take (length (fields ragged_object)) row)
    /\ length [VStr "Cy"] = Nat.min (length (fields ragged_object)) (length row).
Proof.
  apply (rows_tuple_width ragged_object
           [[VStr "Ann"; VFloat 9.5]; [VStr "Bo"; VFloat 8]; [VStr "Cy"]]);
    reflexivity.
Defined.

(** C1 fails on a short row: over [ragged], whose schema has two fields,
    the third tuple has one value; nothing is padded. *)
Lemma rows_short_row_not_padded :
  __init__ sample_float_str sample_book None (SheetName "ragged") None 0 true false
  = Ok ragged_object
  /\ length (fields ragged_object) = 2%nat
  /\ to_list (rows ragged_object)
     = Ok [[VStr "Ann"; VFloat 9.5]; [VStr "Bo"; VFloat 8]; [VStr "Cy"]]
  /\ ~ (forall (self : XLSXObject) (out : list (list raw_value)),
          to_list (rows self) = Ok out ->
          Forall (fun t => length t = length (fields self)) out).
Proof.
  split; [reflexivity|]. split; [reflexivity|]. split; [reflexivity|].
  intros H.
  specialize (H ragged_object
                [[VStr "Ann"; VFloat 9.5]; [VStr "Bo"; VFloat 8]; [VStr "Cy"]]
                eq_refl).
  rewrite !Forall_cons in H. destruct H as (_ & _ & H & _). discriminate H.
Qed.

(** C3: with [stop_empty_line] set, [rows()] yields the rows before the
    first in-scope row whose first [field_count] values are all empty, as
    they are, and stops there without yielding that row, whatever the rows
    after it hold. *)
Theorem rows_stop_at_empty_line :
  forall (self : XLSXObject) (pre post : list Row) (row : Row),
    stop_empty_line self = true ->
    fields self <> [] ->
    in_scope self = (pre ++ row :: post)%list ->
    Forall (fun r => Exists (fun v => is_empty_value v = false)
                       (row_values (length (fields self)) r)) pre ->
    Forall (fun v => is_empty_value v = true)
      (row_values (length (fields self)) row) ->
    to_list (rows self) = Ok (map (row_values (length (fields self))) pre).
Proof.
  intros self pre post row Hstop Hfields Hscope Hpre Hrow.
  rewrite to_list_rows, Hstop, Hscope by done.
  f_equal. apply drain_until.
  - eapply Forall_impl; [exact Hpre|]. intros r. apply any_true_iff.
  - by apply any_false_iff.
Qed.

(** Over [gapped] only the row above the blank one is yielded. *)
Lemma rows_stop_at_empty_line_witness :
  to_list (rows gapped_object) = Ok [[VStr "Ann"; VFloat 9.5]].
Proof.
  apply (rows_stop_at_empty_line gapped_object
           [[str_cell "Ann"; num_cell 9.5]]
           [[str_cell "Bo"; num_cell 8]]
           [blank_cell; blank_cell]).
  - reflexivity.
  - discriminate.
  - reflexivity.
  - constructor; [|constructor]. apply Exists_cons_hd. reflexivity.
  - repeat constructor.
Defined.

(** C4: the first row index is [skip_rows + 1] with a header and
    [skip_rows] without, and the [j]-th tuple that [rows()] yields is read
    from the sheet row of index [first_row + j] (counting from row 0 when
    [first_row] is negative), never from a row before [first_row]. *)
Theorem rows_from_first_row :
  forall (float_str : float -> string) (wb : Workbook)
         (given : option FieldList) (sel : selector) (enc : option string)
         (skip_rows : Z) (has_header stop_empty : bool) (self : XLSXObject),
    __init__ float_str wb given sel enc skip_rows has_header stop_empty = Ok self ->
    first_row self = (if has_header then skip_rows + 1 else skip_rows)
    /\ forall (out : list (list raw_value)) (j : nat) (t : list raw_value),
         to_list (rows self) = Ok out ->
         out !! j = Some t ->
         exists (i : nat) (row : Row),
           i = (Z.to_nat (first_row self) + j)%nat
           /\ first_row self <= Z.of_nat i
           /\ sheet_rows (sheet self) !! i = Some row
           /\ t = row_values (length (fields self)) row.
Proof.
  intros float_str wb given sel enc skip_rows has_header stop_empty self Hinit.
  split.
  - unfold __init__, bind in Hinit.
    destruct (select_sheet wb sel); [|done].
    repeat case_match; simplify_eq; done.
  - intros out j t Hout Hj.
    rewrite to_list_rows in Hout by (by eapply to_list_rows_Ok).
    injection Hout as <-.
    apply drain_lookup in Hj as (row & Hrow & ->).
    exists (Z.to_nat (first_row self) + j)%nat, row.
    split; [done|]. split; [lia|]. split; [|done].
    unfold in_scope in Hrow. by rewrite lookup_drop in Hrow.
Qed.

(** The extractor built over [ragged] with a header and no skipped row. *)
Lemma rows_from_first_row_witness :
  first_row ragged_object = 0 + 1
  /\ forall (out : list (list raw_value)) (j : nat) (t : list raw_value),
       to_list (rows ragged_object) = Ok out ->
       out !! j = Some t ->
       exists (i : nat) (row : Row),
         i = (Z.to_nat (first_row ragged_object) + j)%nat
         /\ first_row ragged_object <= Z.of_nat i
         /\ sheet_rows (sheet ragged_object) !! i = Some row
         /\ t = row_values (length (fields ragged_object)) row.
Proof.
  apply (rows_from_first_row sample_float_str sample_book None
           (SheetName "ragged") None 0 true false ragged_object).
  reflexivity.
Defined.

(** ** Construction *)

Lemma infer_fields_reference_row (float_str : float -> string)
    (sh : Worksheet) (first_row : Z) (has_header : bool) :
  sheet_rows sh !! Z.to_nat first_row = None ->
  infer_fields float_str sh first_row has_header = Raise StopIteration.
Proof.
  intros Hnone. unfold infer_fields.
  by rewrite next_item_scoped, Hnone.
Qed.



(** C6, as the code has it: a supplied field list that is not empty is
    kept as it is and nothing is inferred; construction then only selects
    the sheet and computes the first row index. *)
Theorem explicit_fields_kept :
  forall (float_str : float -> string) (wb : Workbook) (given : FieldList)
         (sel : selector) (enc : option string) (skip_rows : Z)
         (has_header stop_empty : bool),
    given <> [] ->
    __init__ float_str wb (Some given) sel enc skip_rows has_header stop_empty
    = (let! sh := select_sheet wb sel in
       Ok (mkObject wb sh (if has_header then skip_rows + 1 else skip_rows)
             stop_empty given)).
Proof.
  intros float_str wb given sel enc skip_rows has_header stop_empty Hgiven.
  unfold __init__. by destruct given.
Qed.

(** A one-field list given for the sheet without rows. *)
Lemma explicit_fields_kept_witness :
  __init__ sample_float_str sample_book (Some [mkField "who" "string"])
    (SheetName "empty") None 0 true false
  = Ok (mkObject sample_book (mkSheet "empty" []) 1 false [mkField "who" "string"]).
Proof.
  apply (explicit_fields_kept sample_float_str sample_book
           [mkField "who" "string"] (SheetName "empty") None 0 true false).
  discriminate.
Defined.

(** C6 fails for a supplied field list that is empty: it counts as no
    list at all and the fields are inferred from the sheet. *)
Lemma empty_fields_are_inferred :
  (let! self := __init__ sample_float_str sample_book (Some [])
                  (SheetName "scores") None 0 true false in
   Ok (fields self))
  = Ok [mkField "Name" "string"; mkField "Score" "float"]
  /\ ~ (forall (float_str : float -> string) (wb : Workbook) (given : FieldList)
               (sel : selector) (enc : option string) (skip_rows : Z)
               (has_header stop_empty : bool) (self : XLSXObject),
          __init__ float_str wb (Some given) sel enc skip_rows has_header
            stop_empty = Ok self ->
          fields self = given).
Proof.
  split; [reflexivity|].
  intros H.
  specialize (H sample_float_str sample_book [] (SheetName "scores") None 0
                true false _ eq_refl).
  discriminate H.
Qed.

(** C7: on a sheet with no row at or past the first row index,
    construction without a field list fails: [next] raises
    [StopIteration] and no extractor, hence no schema, is produced. *)
Theorem empty_sheet_fails :
  forall (float_str : float -> string) (wb : Workbook) (sel : selector)
         (enc : option string) (skip_rows : Z) (has_header stop_empty : bool)
         (sh : Worksheet),
    select_sheet wb sel = Ok sh ->
    (forall i : nat,
       (if has_header then skip_rows + 1 else skip_rows) <= Z.of_nat i ->
       sheet_rows sh !! i = None) ->
    __init__ float_str wb None sel enc skip_rows has_header stop_empty
    = Raise StopIteration.
Proof.
  intros float_str wb sel enc skip_rows has_header stop_empty sh Hsel Hshort.
  unfold __init__. rewrite Hsel. simpl.
  rewrite infer_fields_reference_row; [done|].
  apply Hshort. lia.
Qed.

(** [scores] has three rows; with two rows skipped and a header the
    first row index is 3. *)
Lemma empty_sheet_fails_witness :
  __init__ sample_float_str sample_book None (SheetName "scores") None 2 true false
  = Raise StopIteration.
Proof.
  apply (empty_sheet_fails sample_float_str sample_book (SheetName "scores")
           None 2 true false scores).
  - reflexivity.
  - intros i Hi. apply lookup_ge_None_2. simpl. lia.
Defined.



(** ** Header names *)

Lemma append_cons (b : ascii) (u T : string) :
  String b u +:+ T = String b (u +:+ T).
Proof. reflexivity. Qed.

Lemma append_nil_l (T : string) : "" +:+ T = T.
Proof. reflexivity. Qed.

Lemma append_nil_r (s : string) : s +:+ "" = s.
Proof. induction s as [|b s IH]; [done|]. by rewrite append_cons, IH. Qed.

Lemma append_assoc (a b c : string) : (a +:+ b) +:+ c = a +:+ (b +:+ c).
Proof. induction a as [|x a IH]; [done|]. by rewrite !append_cons, IH. Qed.

Lemma length_append (a b : string) :
  String.length (a +:+ b) = (String.length a + String.length b)%nat.
Proof.
  induction a as [|x a IH]; [done|]. rewrite append_cons. simpl. by rewrite IH.
Qed.

Lemma concat_chars_app (xs ys : list string) :
  concat_chars (xs ++ ys) = concat_chars xs +:+ concat_chars ys.
Proof.
  induction xs as [|x xs IH]; simpl; [done|].
  by rewrite IH, append_assoc.
Qed.

Lemma starts_with_app (w s : string) :
  starts_with w s = true <-> exists X, s = w +:+ X.
Proof.
  revert s. induction w as [|b w IH]; intros s; simpl.
  - split; [intros _; by exists s|done].
  - destruct s as [|b' s].
    + split; [done|]. by intros [X ?].
    + destruct (Ascii.eqb_spec b b') as [->|Hne]; simpl.
      * rewrite IH. split; intros [X HX]; exists X;
          [by rewrite HX|by rewrite append_cons in HX; injection HX].
      * split; [done|]. intros [X HX]. rewrite append_cons in HX.
        by injection HX.
Qed.

Lemma starts_with_same_length (w c X : string) :
  starts_with w (c +:+ X) = true ->
  String.length w = String.length c -> w = c.
Proof.
  revert c. induction w as [|b w IH]; intros [|b' c];
    rewrite ?append_cons, ?append_nil_l; simpl; try done.
  destruct (Ascii.eqb_spec b b') as [->|]; [|done]. simpl.
  intros Hp [= Hl]. f_equal. by apply IH.
Qed.

(** No character is the beginning of another one. *)
Lemma is_char_prefix_free (c w X : string) :
  is_char c = true -> is_char w = true ->
  starts_with w (c +:+ X) = true -> w = c.
Proof.
  intros Hc Hw Hp. apply (starts_with_same_length w c X Hp).
  destruct c as [|b c]; [done|]. destruct w as [|b' w]; [done|].
  rewrite append_cons in Hp.
  simpl in Hp. destruct (Ascii.eqb_spec b' b) as [->|]; [|done].
  unfold is_char in *.
  apply andb_true_iff in Hc as [Hc _]. apply andb_true_iff in Hw as [Hw _].
  apply Nat.eqb_eq in Hc, Hw. congruence.
Qed.

Lemma continuation_not_char (b : ascii) (v w : string) :
  is_continuation b = true -> is_char w = true ->
  starts_with w (String b v) = false.
Proof.
  intros Hb Hw. destruct w as [|b' w]; [done|]. simpl.
  destruct (Ascii.eqb_spec b' b) as [->|]; [|done].
  unfold is_char in Hw. apply andb_true_iff in Hw as [Hw _].
  apply Nat.eqb_eq in Hw. simpl in Hw.
  unfold is_continuation in Hb. unfold char_len in Hw.
  apply andb_true_iff in Hb as [H1 H2].
  apply N.leb_le in H1. apply N.ltb_lt in H2.
  destruct (N.ltb_spec (N_of_ascii b) 0x80); [lia|].
  destruct (N.ltb_spec (N_of_ascii b) 0xC0); [discriminate Hw|lia].
Qed.

(** Every whitespace character is one encoded character. *)
Lemma whitespace_chars : Forall (fun w => is_char w = true) whitespace.
Proof. vm_compute. repeat constructor. Qed.

Lemma space_width_whitespace (w X : string) :
  w ∈ whitespace ->
  space_width (w +:+ X) = String.length w /\ (0 < String.length w)%nat.
Proof.
  intros Hw. pose proof whitespace_chars as Hchars.
  rewrite Forall_forall in Hchars.
  split.
  - unfold space_width.
    destruct (find _ whitespace) as [w0|] eqn:Hfind.
    + apply find_some in Hfind as [Hin Hp]. simpl in Hp.
      apply list_elem_of_In in Hin.
      by rewrite (is_char_prefix_free w w0 X (Hchars _ Hw) (Hchars _ Hin) Hp).
    + apply list_elem_of_In in Hw.
      apply (find_none _ _ Hfind) in Hw. simpl in Hw.
      assert (starts_with w (w +:+ X) = true) by (apply starts_with_app; eauto).
      congruence.
  - specialize (Hchars _ Hw). destruct w; [done|simpl; lia].
Qed.

Lemma space_width_char (c X : string) :
  is_char c = true -> c ∉ whitespace -> space_width (c +:+ X) = 0%nat.
Proof.
  intros Hc Hnot. pose proof whitespace_chars as Hchars.
  rewrite Forall_forall in Hchars. unfold space_width.
  destruct (find _ whitespace) as [w0|] eqn:Hfind; [|done].
  apply find_some in Hfind as [Hin Hp]. simpl in Hp.
  apply list_elem_of_In in Hin.
  rewrite (is_char_prefix_free c w0 X Hc (Hchars _ Hin) Hp) in Hin. done.
Qed.

Lemma space_width_continuation (b : ascii) (v : string) :
  is_continuation b = true -> space_width (String b v) = 0%nat.
Proof.
  intros Hb. pose proof whitespace_chars as Hchars.
  rewrite Forall_forall in Hchars. unfold space_width.
  destruct (find _ whitespace) as [w0|] eqn:Hfind; [|done].
  apply find_some in Hfind as [Hin Hp]. simpl in Hp.
  apply list_elem_of_In in Hin.
  pose proof (continuation_not_char b v w0 Hb (Hchars _ Hin)) as Hno.
  congruence.
Qed.

Lemma space_width_inv (s : string) (k : nat) :
  space_width s = S k ->
  exists w R, w ∈ whitespace /\ s = w +:+ R /\ String.length w = S k.
Proof.
  unfold space_width.
  destruct (find _ whitespace) as [w0|] eqn:Hfind; [|done].
  apply find_some in Hfind as [Hin Hp]. simpl in Hp.
  apply list_elem_of_In in Hin. apply starts_with_app in Hp as [R ->].
  intros Hlen. eauto.
Qed.

Lemma str_split_from_skip (u R : string) :
  str_split_from (String.length u) (u +:+ R) = str_split_from 0 R.
Proof. induction u as [|b u IH]; [done|]. rewrite append_cons. exact IH. Qed.

(** A whitespace character at the head of the text is passed over. *)
Lemma str_split_whitespace (w R : string) :
  w ∈ whitespace -> str_split (w +:+ R) = str_split R.
Proof.
  intros Hw. destruct (space_width_whitespace w R Hw) as [Hwidth Hpos].
  destruct w as [|b w]; [simpl in Hpos; lia|].
  unfold str_split. rewrite append_cons in *. simpl in *.
  rewrite Hwidth. apply str_split_from_skip.
Qed.

Lemma starts_word_whitespace (w R : string) :
  w ∈ whitespace -> starts_word (w +:+ R) = false.
Proof.
  intros Hw. destruct (space_width_whitespace w R Hw) as [Hwidth Hpos].
  destruct w as [|b w]; [simpl in Hpos; lia|].
  unfold starts_word. rewrite append_cons in *. by rewrite Hwidth.
Qed.

Lemma str_split_byte (b : ascii) (T : string) :
  space_width (String b T) = 0%nat ->
  str_split (String b T) = glue (String b "") T
  /\ starts_word (String b T) = true.
Proof.
  intros Hwidth. split.
  - unfold str_split, glue. simpl. rewrite Hwidth. reflexivity.
  - unfold starts_word. by rewrite Hwidth.
Qed.

Lemma glue_cons (b : ascii) (u T : string) :
  starts_word (u +:+ T) = true ->
  str_split (u +:+ T) = glue u T ->
  glue (String b "") (u +:+ T) = glue (String b u) T.
Proof.
  intros Hstart Hsplit. unfold glue at 1. rewrite Hstart, Hsplit.
  unfold glue. destruct (starts_word T); [|done].
  by destruct (str_split T).
Qed.

Lemma str_split_continuation (u T : string) :
  all_continuation u = true -> u <> "" ->
  str_split (u +:+ T) = glue u T /\ starts_word (u +:+ T) = true.
Proof.
  induction u as [|b u IH]; [done|]. simpl. rewrite append_cons.
  intros [Hb Hu]%andb_true_iff _.
  destruct (str_split_byte b (u +:+ T)) as [Hsplit Hstart].
  { by apply space_width_continuation. }
  split; [|done]. rewrite Hsplit.
  destruct u as [|b' u]; [done|].
  destruct (IH Hu) as [IH1 IH2]; [done|].
  by apply glue_cons.
Qed.

(** A character that is not whitespace goes, whole, to the word. *)
Lemma str_split_char (c T : string) :
  is_word_char c ->
  str_split (c +:+ T) = glue c T /\ starts_word (c +:+ T) = true.
Proof.
  intros [Hc Hnot].
  pose proof (space_width_char c T Hc Hnot) as Hwidth.
  destruct c as [|b u]; [done|]. rewrite append_cons in *. simpl in Hc.
  destruct (str_split_byte b (u +:+ T) Hwidth) as [Hsplit Hstart].
  split; [|done]. rewrite Hsplit.
  destruct u as [|b' u]; [done|].
  apply andb_true_iff in Hc as [_ Hu].
  destruct (str_split_continuation (String b' u) T Hu) as [IH1 IH2]; [done|].
  by apply glue_cons.
Qed.

(** A word followed by whitespace or by the end is one item. *)
Lemma str_split_word (w : list string) (R : string) :
  is_word w -> starts_word R = false ->
  str_split (concat_chars w +:+ R) = concat_chars w :: str_split R
  /\ starts_word (concat_chars w +:+ R) = true.
Proof.
  intros [Hne Hw] HR. induction Hw as [|c w Hc Hw IH]; [done|]. clear Hne.
  simpl. rewrite append_assoc.
  destruct (str_split_char c (concat_chars w +:+ R) Hc) as [Hsplit Hstart].
  split; [|done]. rewrite Hsplit. unfold glue.
  destruct w as [|c' w].
  - simpl. rewrite append_nil_l, HR. by rewrite append_nil_r.
  - destruct IH as [IH1 IH2]; [done|]. by rewrite IH2, IH1.
Qed.

Lemma str_split_blank (bs : list string) (R : string) :
  Forall (fun c => c ∈ whitespace) bs ->
  str_split (concat_chars bs +:+ R) = str_split R.
Proof.
  induction 1 as [|b bs' Hb _ IH]; [done|]. simpl.
  rewrite append_assoc, str_split_whitespace by done. exact IH.
Qed.

Lemma starts_word_blank (bs : list string) (R : string) :
  Forall (fun c => c ∈ whitespace) bs -> starts_word R = false ->
  starts_word (concat_chars bs +:+ R) = false.
Proof.
  intros [|b bs' Hb _] HR; [done|]. simpl.
  rewrite append_assoc. by apply starts_word_whitespace.
Qed.

Lemma str_split_more (more : list (list string * list string)) (trail : list string) :
  Forall (fun p => is_separator (fst p) /\ is_word (snd p)) more ->
  Forall (fun c => c ∈ whitespace) trail ->
  starts_word (concat_chars (separated more ++ trail)%list) = false
  /\ str_split (concat_chars (separated more ++ trail)%list)
     = map (fun p => concat_chars (snd p)) more.
Proof.
  intros Hmore Htrail.
  induction Hmore as [|[sep w] more' [[Hne Hsep] Hw] _ [IH1 IH2]].
  - simpl. split.
    + rewrite <- (append_nil_r (concat_chars trail)).
      by apply starts_word_blank.
    + rewrite <- (append_nil_r (concat_chars trail)).
      by rewrite str_split_blank.
  - unfold separated in *. simpl in *.
    rewrite <- !app_assoc, !concat_chars_app. split.
    + destruct sep as [|b sep]; [done|]. apply Forall_cons in Hsep as [Hb _].
      simpl. rewrite append_assoc. by apply starts_word_whitespace.
    + rewrite str_split_blank by done.
      rewrite <- concat_chars_app.
      destruct (str_split_word w _ Hw IH1) as [-> _]. by rewrite IH2.
Qed.

(** The items of a text with words in it are its words. *)
Lemma str_split_assemble (lead first : list string)
    (more : list (list string * list string)) (trail : list string) :
  Forall (fun c => c ∈ whitespace) lead ->
  is_word first ->
  Forall (fun p => is_separator (fst p) /\ is_word (snd p)) more ->
  Forall (fun c => c ∈ whitespace) trail ->
  str_split (assemble lead first more trail)
  = concat_chars first :: map (fun p => concat_chars (snd p)) more.
Proof.
  intros Hlead Hfirst Hmore Htrail. unfold assemble.
  rewrite !concat_chars_app, str_split_blank by done.
  rewrite <- concat_chars_app.
  destruct (str_split_more more trail Hmore Htrail) as [H1 H2].
  destruct (str_split_word first _ Hfirst H1) as [-> _]. by rewrite H2.
Qed.

Lemma str_split_from_words (s : string) :
  forall skip : nat, Forall (fun w => w <> "") (str_split_from skip s).
Proof.
  induction s as [|b s IH]; intros skip; simpl; [constructor|].
  destruct skip as [|k]; [|apply IH].
  destruct (space_width (String b s)); [|apply IH].
  destruct (starts_word s).
  - specialize (IH 0%nat). destruct (str_split_from 0 s) as [|w ws].
    + by repeat constructor.
    + apply Forall_cons in IH as [_ IH]. by constructor.
  - constructor; [done|apply IH].
Qed.

Lemma str_join_eq_empty (sep : string) (words : list string) :
  Forall (fun w => w <> "") words ->
  str_join sep words = "" <-> words = [].
Proof.
  intros Hwords. split; [|by intros ->].
  destruct Hwords as [|w ws Hw _]; [done|].
  destruct w as [|c w]; [done|]. by destruct ws.
Qed.

(** A text has no item exactly when it is blank. *)
Lemma str_split_blank_iff (s : string) : str_split s = [] <-> is_blank s.
Proof.
  split.
  - remember (String.length s) as n eqn:Hn. revert s Hn.
    induction (lt_wf n) as [n _ IH]; intros s -> Hsplit.
    destruct s as [|b s]; [by exists []|].
    pose proof Hsplit as Hsplit0.
    unfold str_split in Hsplit. simpl in Hsplit.
    destruct (space_width (String b s)) as [|k] eqn:Hwidth.
    + destruct (starts_word s); [|done].
      by destruct (str_split_from 0 s).
    + apply space_width_inv in Hwidth as (w & R & Hw & HR & Hlen).
      assert (HsplitR : str_split R = []).
      { by rewrite <- (str_split_whitespace w R Hw), <- HR. }
      destruct (IH (String.length R)) with (s := R) as (bs & Hbs & ->);
        [|done|done|].
      { rewrite HR, length_append. lia. }
      exists (w :: bs). split; [by constructor|done].
  - intros (bs & Hbs & ->).
    rewrite <- (append_nil_r (concat_chars bs)). by rewrite str_split_blank.
Qed.

Lemma whitespace_single_bytes :
  forallb (fun w => match w with
                    | String a EmptyString => (N_of_ascii a <=? 0x20)%N
                    | _ => true
                    end) whitespace = true.
Proof. vm_compute. reflexivity. Qed.

Lemma graphic_word_char (b : ascii) :
  is_graphic b = true -> is_word_char (String b "").
Proof.
  unfold is_graphic. intros [Hlo Hhi]%andb_true_iff.
  apply N.leb_le in Hlo. apply N.ltb_lt in Hhi. split.
  - unfold is_char, char_len. simpl.
    destruct (N.ltb_spec (N_of_ascii b) 0x80); [done|lia].
  - intros Hin. pose proof whitespace_single_bytes as Hall.
    rewrite forallb_forall in Hall.
    apply list_elem_of_In, Hall in Hin. apply N.leb_le in Hin. lia.
Qed.

(** Printable ASCII without a space is one item. *)
Lemma str_split_graphic (s : string) :
  all_graphic s = true -> s <> "" ->
  str_split s = [s] /\ starts_word s = true.
Proof.
  induction s as [|b s IH]; [done|]. simpl.
  intros [Hb Hs]%andb_true_iff _.
  destruct (str_split_char (String b "") s (graphic_word_char b Hb))
    as [Hsplit Hstart].
  rewrite append_cons, append_nil_l in *.
  split; [|done]. rewrite Hsplit. unfold glue.
  destruct s as [|b' s]; [done|].
  destruct (IH Hs) as [-> ->]; [done|].
  by rewrite append_cons, append_nil_l.
Qed.

Lemma pretty_N_go_graphic (x : N) :
  forall s : string, all_graphic s = true -> all_graphic (pretty_N_go x s) = true.
Proof.
  induction (N.lt_wf_0 x) as [x _ IH]; intros s Hs.
  destruct (decide (x = 0%N)) as [->|Hx]; [by rewrite pretty_N_go_0|].
  rewrite pretty_N_go_step by lia.
  apply IH; [apply N.div_lt; lia|].
  simpl. rewrite Hs, andb_true_r.
  unfold pretty_N_char. by repeat case_match.
Qed.

Lemma pretty_N_go_not_empty (x : N) :
  forall s : string, s <> "" -> pretty_N_go x s <> "".
Proof.
  induction (N.lt_wf_0 x) as [x _ IH]; intros s Hs.
  destruct (decide (x = 0%N)) as [->|Hx]; [by rewrite pretty_N_go_0|].
  rewrite pretty_N_go_step by lia.
  apply IH; [apply N.div_lt; lia|done].
Qed.

Lemma pretty_N_word (x : N) : all_graphic (pretty x) = true /\ pretty x <> "".
Proof.
  unfold pretty, pretty_N. case_decide as Hx; [done|]. split.
  - by apply pretty_N_go_graphic.
  - rewrite pretty_N_go_step by lia. by apply pretty_N_go_not_empty.
Qed.

Lemma pretty_Z_word (n : Z) : all_graphic (pretty n) = true /\ pretty n <> "".
Proof.
  destruct n as [|p|p]; [done|apply pretty_N_word|].
  split; [|done]. apply (pretty_N_word (N.pos p)).
Qed.

(** Closed statements about whitespace, words and separators. *)
Ltac decide_chars :=
  unfold is_word, is_separator, is_word_char;
  apply (bool_decide_unpack _); vm_compute; exact I.

(** C10, as the code has it: every header cell gives a name, which is
    the text of [str(value)] cut at its whitespace and put together again
    with single spaces: leading and trailing whitespace is dropped and
    every run of whitespace between two words becomes one space.  A null
    header gives ["None"], an integer header its decimal text, a float
    header the interpreter's text of the float; the name is empty exactly
    when the text is blank. *)
Theorem header_names_text :
  forall float_str : float -> string,
    (forall header_row : Row,
       length (header_names float_str header_row) = length header_row)
    /\ (forall (date_flag : bool) (tag : string),
          header_names float_str [mkCell VNone date_flag tag] = ["None"])
    /\ (forall (n : Z) (date_flag : bool) (tag : string),
          header_names float_str [mkCell (VInt n) date_flag tag] = [pretty n])
    /\ (forall (f : float) (date_flag : bool) (tag : string),
          all_graphic (float_str f) = true -> float_str f <> "" ->
          header_names float_str [mkCell (VFloat f) date_flag tag]
          = [float_str f])
    /\ (forall (cell : Cell) (lead first : list string)
               (more : list (list string * list string)) (trail : list string),
          py_str float_str (value cell) = assemble lead first more trail ->
          Forall (fun c => c ∈ whitespace) lead ->
          is_word first ->
          Forall (fun p => is_separator (fst p) /\ is_word (snd p)) more ->
          Forall (fun c => c ∈ whitespace) trail ->
          header_names float_str [cell]
          = [str_join " " (concat_chars first
                           :: map (fun p => concat_chars (snd p)) more)])
    /\ (forall cell : Cell,
          header_names float_str [cell] = [""]
          <-> is_blank (py_str float_str (value cell))).
Proof.
  intros float_str. repeat split.
  - intros header_row. unfold header_names. apply length_map.
  - intros n date_flag tag. unfold header_names; simpl.
    destruct (pretty_Z_word n) as [Hn Hne].
    by destruct (str_split_graphic _ Hn Hne) as [-> _].
  - intros f date_flag tag Hf Hne. unfold header_names; simpl.
    by destruct (str_split_graphic _ Hf Hne) as [-> _].
  - intros cell lead first more trail Htext Hlead Hfirst Hmore Htrail.
    unfold header_names; simpl.
    by rewrite Htext, str_split_assemble.
  - unfold header_names; simpl. intros [= Hname].
    apply str_split_blank_iff.
    by apply (str_join_eq_empty " "); [apply str_split_from_words|].
  - unfold header_names; simpl. intros Hblank.
    apply str_split_blank_iff in Hblank. by rewrite Hblank.
Qed.

(** The header of [wrapped]: single spaces between its three words. *)
Lemma header_names_text_witness :
  header_names sample_float_str [wrapped_header]
  = [str_join " " ["Prix"; utf8_encode 0xE0; "payer"]].
Proof.
  destruct (header_names_text sample_float_str) as (_ & _ & _ & _ & Hwords & _).
  apply (Hwords wrapped_header
           [" "] ["P"; "r"; "i"; "x"]
           [ ([" "; utf8_encode 0xA0], [utf8_encode 0xE0]);
             ([utf8_encode 0x9], ["p"; "a"; "y"; "e"; "r"]) ]
           [utf8_encode 0x2003]).
  - reflexivity.
  - decide_chars.
  - decide_chars.
  - decide_chars.
  - decide_chars.
Defined.

(** C10 fails for a header cell whose text is blank: over [unnamed] the
    second field is named by the empty string. *)
Lemma blank_header_gives_empty_name :
  (let! self := __init__ sample_float_str sample_book None
                  (SheetName "unnamed") None 0 true false in
   Ok (map name (fields self)))
  = Ok ["Name"; ""]
  /\ ~ (forall (float_str : float -> string) (header_row : Row),
          Forall (fun n => n <> "") (header_names float_str header_row)).
Proof.
  split; [reflexivity|].
  intros H.
  specialize (H sample_float_str [str_cell "Name"; str_cell " "]).
  apply Forall_cons in H as [_ H]. apply Forall_cons in H as [H _].
  by apply H.
Qed.

(** * Further properties of the module *)

(** ** The generator protocol of [rows] *)

Lemma next_finished (g : generator) :
  (fst (next g) = Stopped \/ exists e, fst (next g) = Raised e) ->
  snd (next g) = Finished.
Proof.
  assert (Hresume : forall se fc rs,
    (fst (resume se fc rs) = Stopped \/ exists e, fst (resume se fc rs) = Raised e) ->
    snd (resume se fc rs) = Finished).
  { intros se fc [|[i row] rs]; simpl; [done|].
    destruct (se && negb (any (row_values fc row))); simpl; [done|].
    by intros [?|[? ?]]. }
  destruct g as [self|se fc rs|]; simpl; [|apply Hresume|done].
  destruct (fields self); [done|]. apply Hresume.
Qed.

Lemma advance_finished (n : nat) : advance n Finished = Finished.
Proof. induction n as [|n IH]; [done|]. simpl. exact IH. Qed.

(** Pulling a generator of [rows] with [next] gives the tuples of
    [list(g)] one after the other, and [StopIteration] at every pull after
    the last one. *)
Theorem rows_pulls_match_list :
  forall (g : generator) (out : list (list raw_value)),
    to_list g = Ok out ->
    (forall (j : nat) (t : list raw_value),
       out !! j = Some t -> fst (next (advance j g)) = Yielded t)
    /\ (forall j : nat,
          (length out <= j)%nat -> fst (next (advance j g)) = Stopped).
Proof.
  intros g out. revert g.
  induction out as [|t0 out IH]; intros g Hlist;
    rewrite to_list_next in Hlist;
    destruct (next g) as [[t'| |e] g'] eqn:Hnext; simpl in Hlist;
    try discriminate Hlist.
  - destruct (to_list g'); discriminate Hlist.
  - split; [done|]. intros j _.
    assert (Hfin : snd (next g) = Finished).
    { apply next_finished. left. by rewrite Hnext. }
    destruct j as [|j]; simpl; [by rewrite Hnext|].
    by rewrite Hfin, advance_finished.
  - destruct (to_list g') as [rest|] eqn:Hrest; simpl in Hlist;
      [|discriminate Hlist].
    injection Hlist as -> ->.
    destruct (IH g' Hrest) as [Hyield Hstop].
    split.
    + intros [|j] t; simpl.
      * intros [= <-]. by rewrite Hnext.
      * rewrite Hnext. simpl. apply Hyield.
    + intros [|j] Hj; simpl in *; [lia|].
      rewrite Hnext. simpl. apply Hstop. lia.
Qed.

(** The three tuples of [ragged], then the end. *)
Lemma rows_pulls_match_list_witness :
  (forall (j : nat) (t : list raw_value),
     [[VStr "Ann"; VFloat 9.5]; [VStr "Bo"; VFloat 8]; [VStr "Cy"]] !! j = Some t ->
     fst (next (advance j (rows ragged_object))) = Yielded t)
  /\ (forall j : nat,
        (3 <= j)%nat -> fst (next (advance j (rows ragged_object))) = Stopped).
Proof.
  apply (rows_pulls_match_list (rows ragged_object)
           [[VStr "Ann"; VFloat 9.5]; [VStr "Bo"; VFloat 8]; [VStr "Cy"]]).
  reflexivity.
Defined.

(** Without [stop_empty_line], and with a first row index inside the
    sheet, [rows()] yields as many tuples as [__len__] says. *)
Theorem rows_count_matches_len :
  forall (self : XLSXObject) (out : list (list raw_value)),
    stop_empty_line self = false ->
    0 <= first_row self <= Z.of_nat (length (sheet_rows (sheet self))) ->
    to_list (rows self) = Ok out ->
    Z.of_nat (length out) = __len__ self.
Proof.
  intros self out Hstop Hrange Hout.
  rewrite to_list_rows in Hout by (by eapply to_list_rows_Ok).
  injection Hout as <-.
  rewrite Hstop, drain_all, length_map, len_is_rows_minus_first_row_aux.
  unfold in_scope. rewrite length_drop. lia.
Qed.

Lemma rows_count_matches_len_witness :
  Z.of_nat (length [[VStr "Ann"; VFloat 9.5]; [VStr "Bo"; VFloat 8]; [VStr "Cy"]])
  = __len__ ragged_object.
Proof.
  apply (rows_count_matches_len ragged_object); [reflexivity|simpl; lia|reflexivity].
Defined.

Lemma drain_stop_nonempty (field_count : nat) (xs : list Row) :
  forall start,
    Forall (fun t => any t = true) (drain true field_count (enumerate_from start xs)).
Proof.
  induction xs as [|row xs IH]; intros start; simpl; [constructor|].
  destruct (any (row_values field_count row)) eqn:Hany; simpl; [|constructor].
  constructor; [done|apply IH].
Qed.

Lemma drain_prefix (stop_empty : bool) (field_count : nat) (xs : list Row) :
  forall start,
    drain stop_empty field_count (enumerate_from start xs)
    `prefix_of` map (row_values field_count) xs.
Proof.
  induction xs as [|row xs IH]; intros start; simpl; [done|].
  destruct (stop_empty && negb (any (row_values field_count row))).
  - apply prefix_nil.
  - apply prefix_cons, IH.
Qed.

(** With [stop_empty_line] set, [rows()] yields a leading part of what it
    would yield without it, and every tuple it yields holds at least one
    value that is not empty. *)
Theorem rows_stop_never_yields_empty :
  forall (self : XLSXObject) (out : list (list raw_value)),
    stop_empty_line self = true ->
    to_list (rows self) = Ok out ->
    out `prefix_of` map (row_values (length (fields self))) (in_scope self)
    /\ Forall (fun t => Exists (fun v => is_empty_value v = false) t) out.
Proof.
  intros self out Hstop Hout.
  rewrite to_list_rows in Hout by (by eapply to_list_rows_Ok).
  injection Hout as <-. rewrite Hstop. split.
  - apply drain_prefix.
  - eapply Forall_impl; [apply drain_stop_nonempty|].
    intros t. apply any_true_iff.
Qed.

Lemma rows_stop_never_yields_empty_witness :
  [[VStr "Ann"; VFloat 9.5]]
    `prefix_of` map (row_values (length (fields gapped_object)))
                  (in_scope gapped_object)
  /\ Forall (fun t => Exists (fun v => is_empty_value v = false) t)
       [[VStr "Ann"; VFloat 9.5]].
Proof.
  apply (rows_stop_never_yields_empty gapped_object); reflexivity.
Defined.

(** A sheet of three rows read without a header. *)
Lemma len_of_inferred_witness :
  exists self : XLSXObject,
    __init__ sample_float_str sample_book None (SheetName "scores") None 0 false
      false = Ok self
    /\ 0 < __len__ self /\ len self = Ok (__len__ self).
Proof.
  eexists. split; [reflexivity|].
  apply (len_of_inferred sample_float_str sample_book (SheetName "scores")
           None 0 false false).
  - reflexivity.
  - vm_compute. discriminate.
Defined.

(** ** Construction: inferred fields *)

Lemma append_fields_zip (names : list string) (row : Row) :
  forall acc : FieldList,
    append_fields acc (zip names row)
    = (acc ++ zip_with (fun n c => mkField n (cell_storage_type c)) names row)%list.
Proof.
  revert row. induction names as [|n names IH]; intros row acc; simpl.
  - by rewrite app_nil_r.
  - destruct row as [|c row]; simpl; [by rewrite app_nil_r|].
    rewrite IH. unfold FieldList_append. by rewrite <- app_assoc.
Qed.

(** What [infer_fields] does once the reference row is known. *)
Lemma infer_fields_reference (float_str : float -> string) (sh : Worksheet)
    (first_row : Z) (has_header : bool) (ref : Row) :
  sheet_rows sh !! Z.to_nat first_row = Some ref ->
  exists names : list string,
    infer_fields float_str sh first_row has_header
    = Ok (zip_with (fun n c => mkField n (cell_storage_type c)) names ref)
    /\ (if has_header
        then exists header : Row,
               sheet_rows sh !! Z.to_nat (first_row - 1) = Some header
               /\ names = header_names float_str header
        else names = column_names ref).
Proof.
  intros Href. unfold infer_fields.
  rewrite next_item_scoped, Href. simpl.
  destruct has_header.
  - rewrite next_item_scoped.
    destruct (lookup_lt_is_Some_2 (sheet_rows sh) (Z.to_nat (first_row - 1)))
      as [header Hheader].
    { apply lookup_lt_Some in Href. lia. }
    rewrite Hheader. simpl. eexists. split; [|eauto].
    by rewrite append_fields_zip.
  - simpl. eexists. split; [|done]. by rewrite append_fields_zip.
Qed.

Lemma column_names_length (ref : Row) : length (column_names ref) = length ref.
Proof. unfold column_names. by rewrite length_map, length_seq. Qed.

Lemma column_names_lookup (ref : Row) (i : nat) :
  (i < length ref)%nat ->
  column_names ref !! i = Some ("col" +:+ pretty (Z.of_nat i)).
Proof.
  intros Hi. unfold column_names.
  rewrite list_lookup_fmap, lookup_seq_lt by done. reflexivity.
Qed.

Lemma column_names_NoDup (ref : Row) : NoDup (column_names ref).
Proof.
  unfold column_names. apply NoDup_fmap_2; [|apply NoDup_seq].
  intros i j Hij. injection Hij as Hij. simpl in Hij.
  apply pretty_Z_inj in Hij. lia.
Qed.

Lemma names_of_zipped (names : list string) (ref : Row) :
  length names = length ref ->
  FieldList_names (zip_with (fun n c => mkField n (cell_storage_type c)) names ref)
  = names.
Proof.
  unfold FieldList_names. revert ref.
  induction names as [|n names IH]; intros [|c ref] Hlen; simpl in *;
    try done.
  f_equal. apply IH. lia.
Qed.

(** Without a header the inferred fields are as many as the cells of the
    reference row and are named [col0], [col1], ... in order; the names
    are pairwise distinct. *)
Theorem inferred_column_names :
  forall (float_str : float -> string) (wb : Workbook) (sel : selector)
         (enc : option string) (skip_rows : Z) (stop_empty : bool)
         (sh : Worksheet) (ref : Row),
    select_sheet wb sel = Ok sh ->
    sheet_rows sh !! Z.to_nat skip_rows = Some ref ->
    exists self : XLSXObject,
      __init__ float_str wb None sel enc skip_rows false stop_empty = Ok self
      /\ length (fields self) = length ref
      /\ (forall i : nat,
            (i < length ref)%nat ->
            FieldList_names (fields self) !! i
            = Some ("col" +:+ pretty (Z.of_nat i)))
      /\ NoDup (FieldList_names (fields self)).
Proof.
  intros float_str wb sel enc skip_rows stop_empty sh ref Hsel Href.
  destruct (infer_fields_reference float_str sh skip_rows false ref Href)
    as (names & Hinfer & ->).
  eexists. split.
  { unfold __init__. rewrite Hsel. simpl. rewrite Hinfer. reflexivity. }
  simpl. rewrite names_of_zipped by apply column_names_length.
  split; [|split].
  - rewrite length_zip_with, column_names_length. lia.
  - apply column_names_lookup.
  - apply column_names_NoDup.
Qed.

Lemma inferred_column_names_witness :
  exists self : XLSXObject,
    __init__ sample_float_str sample_book None (SheetName "scores") None 1 false
      false = Ok self
    /\ length (fields self) = length [str_cell "Ann"; num_cell 9.5]
    /\ (forall i : nat,
          (i < length [str_cell "Ann"; num_cell 9.5])%nat ->
          FieldList_names (fields self) !! i
          = Some ("col" +:+ pretty (Z.of_nat i)))
    /\ NoDup (FieldList_names (fields self)).
Proof.
  apply (inferred_column_names sample_float_str sample_book
           (SheetName "scores") None 1 false scores); reflexivity.
Defined.

(** With a header the inferred fields pair the names of the header row
    with the cells of the reference row by position, as far as the shorter
    of the two rows goes: header names past the reference row and cells
    past the header row give no field. *)
Theorem inferred_header_fields :
  forall (float_str : float -> string) (wb : Workbook) (sel : selector)
         (enc : option string) (skip_rows : Z) (stop_empty : bool)
         (sh : Worksheet) (header ref : Row),
    select_sheet wb sel = Ok sh ->
    sheet_rows sh !! Z.to_nat skip_rows = Some header ->
    sheet_rows sh !! Z.to_nat (skip_rows + 1) = Some ref ->
    exists self : XLSXObject,
      __init__ float_str wb None sel enc skip_rows true stop_empty = Ok self
      /\ fields self
         = zip_with (fun n c => mkField n (cell_storage_type c))
             (header_names float_str header) ref
      /\ length (fields self) = Nat.min (length header) (length ref).
Proof.
  intros float_str wb sel enc skip_rows stop_empty sh header ref Hsel Hhead Href.
  destruct (infer_fields_reference float_str sh (skip_rows + 1) true ref Href)
    as (names & Hinfer & header' & Hhead' & ->).
  replace (skip_rows + 1 - 1) with skip_rows in Hhead' by lia.
  rewrite Hhead in Hhead'. injection Hhead' as <-.
  eexists. split.
  { unfold __init__. rewrite Hsel. simpl. rewrite Hinfer. reflexivity. }
  simpl. split; [done|].
  rewrite length_zip_with. unfold header_names. by rewrite length_map.
Qed.

Lemma inferred_header_fields_witness :
  exists self : XLSXObject,
    __init__ sample_float_str sample_book None (SheetName "scores") None 0 true
      false = Ok self
    /\ fields self
       = zip_with (fun n c => mkField n (cell_storage_type c))
           (header_names sample_float_str [str_cell "Name"; str_cell "Score "])
           [str_cell "Ann"; num_cell 9.5]
    /\ length (fields self)
       = Nat.min (length [str_cell "Name"; str_cell "Score "])
           (length [str_cell "Ann"; num_cell 9.5]).
Proof.
  apply (inferred_header_fields sample_float_str sample_book
           (SheetName "scores") None 0 false scores); reflexivity.
Defined.

Lemma cell_storage_type_range (cell : Cell) :
  cell_storage_type cell ∈ ["string"; "float"; "boolean"; "date"; "unknown"].
Proof.
  unfold cell_storage_type, dict_get.
  destruct (is_date cell); [set_solver|].
  destruct (CELL_TYPES !! data_type cell) as [ty|] eqn:Hty; [|set_solver].
  unfold CELL_TYPES in Hty.
  repeat (apply lookup_insert_Some in Hty as [[_ <-]|[_ Hty]]; [set_solver|]).
  by rewrite lookup_empty in Hty.
Qed.

(** Every field that construction infers has one of the five storage
    types [string], [float], [boolean], [date] and [unknown]. *)
Theorem inferred_storage_types :
  forall (float_str : float -> string) (wb : Workbook) (sel : selector)
         (enc : option string) (skip_rows : Z) (has_header stop_empty : bool)
         (self : XLSXObject),
    __init__ float_str wb None sel enc skip_rows has_header stop_empty = Ok self ->
    Forall (fun f => storage_type f
                     ∈ ["string"; "float"; "boolean"; "date"; "unknown"])
      (fields self).
Proof.
  intros float_str wb sel enc skip_rows has_header stop_empty self Hinit.
  unfold __init__, bind in Hinit.
  destruct (select_sheet wb sel) as [sh|]; [|done].
  destruct (infer_fields _ _ _ _) as [fl|] eqn:Hinfer; [|done].
  injection Hinit as <-. simpl.
  unfold infer_fields in Hinfer. rewrite next_item_scoped in Hinfer.
  destruct (sheet_rows sh !! _) as [ref|] eqn:Href; [|done].
  destruct (infer_fields_reference float_str sh _ has_header ref Href)
    as (names & Hfl & _).
  unfold infer_fields in Hfl. rewrite next_item_scoped, Href in Hfl.
  rewrite Hfl in Hinfer. injection Hinfer as <-.
  clear. revert ref. induction names as [|n names IH]; intros [|c ref]; simpl;
    try constructor.
  - apply cell_storage_type_range.
  - apply IH.
Qed.

Lemma inferred_storage_types_witness :
  Forall (fun f => storage_type f
                   ∈ ["string"; "float"; "boolean"; "date"; "unknown"])
    (fields ragged_object).
Proof.
  apply (inferred_storage_types sample_float_str sample_book
           (SheetName "ragged") None 0 true false ragged_object).
  reflexivity.
Defined.

(** ** Construction: sheet selection and failures *)

Lemma list_getitem_Raise {A} (xs : list A) (i : Z) (e : exn) :
  list_getitem xs i = Raise e ->
  e = IndexError
  /\ (i < - Z.of_nat (length xs) \/ Z.of_nat (length xs) <= i).
Proof.
  unfold list_getitem. intros H.
  destruct (i <? 0) eqn:Hi;
    destruct (_ && _) eqn:Hj;
    try (destruct (xs !! _) eqn:Hx;
         [discriminate H|apply lookup_ge_None in Hx]);
    injection H as <-; (split; [done|]);
    rewrite ?andb_true_iff, ?andb_false_iff, ?Z.ltb_lt, ?Z.ltb_ge,
      ?Z.leb_le, ?Z.leb_gt in *; lia.
Qed.

Lemma workbook_getitem_Raise (wb : Workbook) (key : string) (e : exn) :
  workbook_getitem wb key = Raise e ->
  e = KeyError ("Worksheet " +:+ key +:+ " does not exist.")
  /\ key ∉ map title (worksheets wb).
Proof.
  unfold workbook_getitem.
  destruct (find _ _) eqn:Hfind; [done|]. intros [= <-]. split; [done|].
  intros (ws & -> & Hin)%list_elem_of_fmap.
  apply list_elem_of_In in Hin.
  apply (find_none _ _ Hfind) in Hin. simpl in Hin.
  by rewrite String.eqb_refl in Hin.
Qed.

Lemma init_failures_aux (float_str : float -> string) (wb : Workbook)
    (given : option FieldList) (sel : selector) (enc : option string)
    (skip_rows : Z) (has_header stop_empty : bool) (e : exn) :
  __init__ float_str wb given sel enc skip_rows has_header stop_empty = Raise e ->
  (sel = SheetOther
   /\ e = ArgumentError "sheet has to be a string or an integer")
  \/ (exists i : Z,
        sel = SheetIndex i /\ e = IndexError
        /\ (i < - Z.of_nat (length (worksheets wb))
            \/ Z.of_nat (length (worksheets wb)) <= i))
  \/ (exists s : string,
        sel = SheetName s
        /\ e = KeyError ("Worksheet " +:+ s +:+ " does not exist.")
        /\ s ∉ map title (worksheets wb))
  \/ (e = StopIteration
      /\ (given = None \/ given = Some [])
      /\ exists sh : Worksheet,
           select_sheet wb sel = Ok sh
           /\ sheet_rows sh
                !! Z.to_nat (if has_header then skip_rows + 1 else skip_rows)
              = None).
Proof.
  intros Hinit.
  unfold __init__ in Hinit.
  destruct (select_sheet wb sel) as [sh|e'] eqn:Hsel; simpl in Hinit.
  - right; right; right.
    assert (Hinfer : infer_fields float_str sh
                       (if has_header then skip_rows + 1 else skip_rows)
                       has_header = Raise e
                     /\ (given = None \/ given = Some [])).
    { destruct given as [[|f fl]|]; simpl in Hinit.
      - destruct (infer_fields _ _ _ _); [done|]. injection Hinit as ->. eauto.
      - done.
      - destruct (infer_fields _ _ _ _); [done|]. injection Hinit as ->. eauto. }
    destruct Hinfer as [Hinfer Hgiven].
    destruct (sheet_rows sh
                !! Z.to_nat (if has_header then skip_rows + 1 else skip_rows))
      as [ref|] eqn:Href.
    + destruct (infer_fields_reference float_str sh _ has_header ref Href)
        as (names & Hok & _).
      rewrite Hok in Hinfer. discriminate Hinfer.
    + rewrite (infer_fields_reference_row float_str sh _ has_header Href)
        in Hinfer.
      injection Hinfer as <-. eauto.
  - injection Hinit as <-.
    destruct sel as [i|s|]; simpl in Hsel.
    + right; left. apply list_getitem_Raise in Hsel as [-> Hrange]. eauto.
    + right; right; left. apply workbook_getitem_Raise in Hsel as [-> Hnone].
      eauto.
    + left. by injection Hsel as <-.
Qed.

(** Construction fails in five ways only: with the loader's own error
    when the resource is not a workbook and cannot be loaded; and, once
    there is a workbook, with [ArgumentError] for a selector that is
    neither an index nor a name, [IndexError] for an index outside the
    workbook, [KeyError] for a name that no sheet bears, and
    [StopIteration] when the fields have to be inferred and the selected
    sheet has no row at the first row index. *)
Theorem init_failures :
  forall (Resource : Type) (load : Resource -> result Workbook)
         (float_str : float -> string) (resource : resource_arg Resource)
         (given : option FieldList) (sel : selector) (enc : option string)
         (skip_rows : Z) (has_header stop_empty : bool) (e : exn),
    new_XLSXObject load float_str resource given sel enc skip_rows has_header
      stop_empty = Raise e ->
    (exists r : Resource, resource = ToLoad r /\ load r = Raise e)
    \/ exists wb : Workbook,
         (resource = IsWorkbook wb
          \/ exists r : Resource, resource = ToLoad r /\ load r = Ok wb)
         /\ ((sel = SheetOther
              /\ e = ArgumentError "sheet has to be a string or an integer")
             \/ (exists i : Z,
                   sel = SheetIndex i /\ e = IndexError
                   /\ (i < - Z.of_nat (length (worksheets wb))
                       \/ Z.of_nat (length (worksheets wb)) <= i))
             \/ (exists s : string,
                   sel = SheetName s
                   /\ e = KeyError ("Worksheet " +:+ s +:+ " does not exist.")
                   /\ s ∉ map title (worksheets wb))
             \/ (e = StopIteration
                 /\ (given = None \/ given = Some [])
                 /\ exists sh : Worksheet,
                      select_sheet wb sel = Ok sh
                      /\ sheet_rows sh
                           !! Z.to_nat (if has_header then skip_rows + 1
                                        else skip_rows)
                         = None)).
Proof.
  intros Resource load float_str resource given sel enc skip_rows has_header
    stop_empty e Hnew.
  unfold new_XLSXObject in Hnew.
  destruct resource as [wb|r]; simpl in Hnew.
  - right. exists wb. split; [by left|].
    by apply (init_failures_aux float_str wb given sel enc skip_rows has_header
                stop_empty).
  - destruct (load r) as [wb|e'] eqn:Hload; simpl in Hnew.
    + right. exists wb. split; [right; eauto|].
      by apply (init_failures_aux float_str wb given sel enc skip_rows has_header
                stop_empty).
    + left. injection Hnew as <-. eauto.
Qed.

(** A name that no sheet of the loaded workbook bears. *)
Lemma init_failures_witness :
  (exists r : unit,
     ToLoad tt = ToLoad r
     /\ (fun _ : unit => Ok sample_book) r
        = Raise (KeyError "Worksheet absent does not exist."))
  \/ exists wb : Workbook,
       (ToLoad tt = IsWorkbook wb
        \/ exists r : unit,
             ToLoad tt = ToLoad r /\ (fun _ : unit => Ok sample_book) r = Ok wb)
       /\ ((SheetName "absent" = SheetOther
            /\ KeyError "Worksheet absent does not exist."
               = ArgumentError "sheet has to be a string or an integer")
           \/ (exists i : Z,
                 SheetName "absent" = SheetIndex i
                 /\ KeyError "Worksheet absent does not exist." = IndexError
                 /\ (i < - Z.of_nat (length (worksheets wb))
                     \/ Z.of_nat (length (worksheets wb)) <= i))
           \/ (exists s : string,
                 SheetName "absent" = SheetName s
                 /\ KeyError "Worksheet absent does not exist."
                    = KeyError ("Worksheet " +:+ s +:+ " does not exist.")
                 /\ s ∉ map title (worksheets wb))
           \/ (KeyError "Worksheet absent does not exist." = StopIteration
               /\ (@None FieldList = None \/ @None FieldList = Some [])
               /\ exists sh : Worksheet,
                    select_sheet wb (SheetName "absent") = Ok sh
                    /\ sheet_rows sh !! Z.to_nat (0 + 1) = None)).
Proof.
  apply (init_failures unit (fun _ => Ok sample_book) sample_float_str
           (ToLoad tt) None (SheetName "absent") None 0 true false).
  reflexivity.
Defined.

Lemma find_title (sheets : list Worksheet) :
  forall (k : nat) (sh : Worksheet),
    sheets !! k = Some sh ->
    (forall (j : nat) (sh' : Worksheet),
       (j < k)%nat -> sheets !! j = Some sh' -> title sh' <> title sh) ->
    find (fun ws => String.eqb (title ws) (title sh)) sheets = Some sh.
Proof.
  induction sheets as [|ws sheets IH]; intros k sh Hk Hfirst; [done|].
  destruct k as [|k]; simpl in *.
  - injection Hk as ->. by rewrite String.eqb_refl.
  - destruct (String.eqb_spec (title ws) (title sh)) as [Heq|_].
    + by destruct (Hfirst 0%nat ws ltac:(lia) eq_refl).
    + apply (IH k); [done|]. intros j sh' Hj Hsh'.
      apply (Hfirst (S j)); [lia|done].
Qed.

(** In a workbook with a list of [n] sheets, the index [k] and the
    negative index [k - n] both select the sheet at position [k]; when the
    titles are pairwise distinct, so does the title of that sheet. *)
Theorem select_sheet_position :
  forall (wb : Workbook) (k : nat) (sh : Worksheet),
    worksheets wb !! k = Some sh ->
    select_sheet wb (SheetIndex (Z.of_nat k)) = Ok sh
    /\ select_sheet wb
         (SheetIndex (Z.of_nat k - Z.of_nat (length (worksheets wb)))) = Ok sh
    /\ (NoDup (map title (worksheets wb)) ->
        select_sheet wb (SheetName (title sh)) = Ok sh).
Proof.
  intros wb k sh Hk.
  pose proof (lookup_lt_Some _ _ _ Hk) as Hlt.
  split; [|split].
  - simpl. unfold list_getitem.
    destruct (Z.ltb_spec (Z.of_nat k) 0) as [?|_]; [lia|].
    destruct (Z.leb_spec 0 (Z.of_nat k)) as [_|?]; [|lia].
    destruct (Z.ltb_spec (Z.of_nat k) (Z.of_nat (length (worksheets wb))))
      as [_|?]; [|lia].
    simpl. by rewrite Nat2Z.id, Hk.
  - simpl. unfold list_getitem.
    set (n := Z.of_nat (length (worksheets wb))) in *.
    destruct (Z.ltb_spec (Z.of_nat k - n) 0) as [_|?]; [|lia].
    replace (Z.of_nat k - n + n) with (Z.of_nat k) by lia.
    destruct (Z.leb_spec 0 (Z.of_nat k)) as [_|?]; [|lia].
    destruct (Z.ltb_spec (Z.of_nat k) n) as [_|?]; [|lia].
    simpl. by rewrite Nat2Z.id, Hk.
  - intros Hdistinct. simpl. unfold workbook_getitem.
    rewrite (find_title _ k sh Hk); [done|].
    intros j sh' Hj Hsh' Heq.
    assert (j = k); [|lia].
    apply (NoDup_lookup _ j k (title sh) Hdistinct);
      rewrite list_lookup_fmap; [rewrite Hsh'; simpl; by rewrite Heq|by rewrite Hk].
Qed.

Lemma select_sheet_position_witness :
  select_sheet sample_book (SheetIndex (Z.of_nat 2)) = Ok gapped
  /\ select_sheet sample_book
       (SheetIndex (Z.of_nat 2 - Z.of_nat (length (worksheets sample_book))))
     = Ok gapped
  /\ (NoDup (map title (worksheets sample_book)) ->
      select_sheet sample_book (SheetName (title gapped)) = Ok gapped).
Proof.
  apply (select_sheet_position sample_book 2 gapped). reflexivity.
Defined.

Lemma workbook_getitem_Ok (wb : Workbook) (key : string) :
  key ∈ map title (worksheets wb) ->
  exists sh : Worksheet, workbook_getitem wb key = Ok sh /\ title sh = key.
Proof.
  unfold workbook_getitem. destruct wb as [sheets]; simpl.
  induction sheets as [|ws sheets IH]; simpl.
  - by intros ?%elem_of_nil.
  - intros Hin. destruct (String.eqb_spec (title ws) key) as [Heq|Hne]; [eauto|].
    apply IH. apply elem_of_cons in Hin as [Heq|Hin]; [by destruct Hne|done].
Qed.

(** ** The store *)

Lemma book_loaded_once_aux (Resource : Type)
    (load load' : Resource -> result Workbook)
    (self self' : XLSXStore Resource) (b : Workbook) :
  book load self = (Ok b, self') ->
  _book self' = Some b
  /\ resource self' = resource self
  /\ encoding self' = encoding self
  /\ book load' self' = (Ok b, self').
Proof.
  intros Hbook. unfold book in *.
  destruct (_book self) as [b0|] eqn:Hcache.
  - injection Hbook as -> ->. by rewrite Hcache.
  - destruct (load (resource self)) as [b0|e]; [|discriminate Hbook].
    by injection Hbook as -> <-.
Qed.

(** Once the [book] property has given a workbook, the store holds it:
    asking again gives the same workbook and leaves the store as it is,
    without the loader taking part; resource and encoding are kept. *)
Theorem book_loaded_once :
  forall (Resource : Type) (load load' : Resource -> result Workbook)
         (self self' : XLSXStore Resource) (b : Workbook),
    book load self = (Ok b, self') ->
    _book self' = Some b
    /\ resource self' = resource self
    /\ encoding self' = encoding self
    /\ book load' self' = (Ok b, self').
Proof.
  intros Resource load load' self self' b Hbook.
  by apply (book_loaded_once_aux Resource load load').
Qed.

Lemma book_loaded_once_witness :
  _book (mkStore tt None (Some sample_book)) = Some sample_book
  /\ resource (mkStore tt None (Some sample_book))
     = resource (XLSXStore_init tt None)
  /\ encoding (mkStore tt None (Some sample_book))
     = encoding (XLSXStore_init tt None)
  /\ book (fun _ : unit => Raise IndexError) (mkStore tt None (Some sample_book))
     = (Ok sample_book, mkStore tt None (Some sample_book)).
Proof.
  apply (book_loaded_once unit (fun _ => Ok sample_book)
           (fun _ => Raise IndexError) (XLSXStore_init tt None)).
  reflexivity.
Defined.

(** A workbook that cannot be loaded fails [get_object] and
    [object_names] with the loader's error; the store is left as it was,
    with nothing cached, so the next use loads again. *)
Theorem load_failure_propagates :
  forall (Resource : Type) (load : Resource -> result Workbook)
         (float_str : float -> string) (self : XLSXStore Resource) (e : exn)
         (name : selector) (skip_rows : Z) (has_header stop_empty : bool)
         (given : option FieldList),
    _book self = None ->
    load (resource self) = Raise e ->
    get_object load float_str self name skip_rows has_header stop_empty given
    = (Raise e, self)
    /\ object_names load self = (Raise e, self).
Proof.
  intros Resource load float_str self e name skip_rows has_header stop_empty
    given Hcache Hload.
  unfold get_object, object_names, book. by rewrite Hcache, Hload.
Qed.

Lemma load_failure_propagates_witness :
  get_object (fun _ : unit => Raise (KeyError "book.xlsx")) sample_float_str
    (XLSXStore_init tt None) (SheetIndex 0) 0 true false None
  = (Raise (KeyError "book.xlsx"), XLSXStore_init tt None)
  /\ object_names (fun _ : unit => Raise (KeyError "book.xlsx"))
       (XLSXStore_init tt None)
     = (Raise (KeyError "book.xlsx"), XLSXStore_init tt None).
Proof.
  apply (load_failure_propagates unit); reflexivity.
Defined.

(** [get_object] asked twice gives the same answer: the second call works
    on the store the first one returned, finds the workbook there and
    returns that store unchanged, whatever the loader would do. *)
Theorem get_object_again :
  forall (Resource : Type) (load load' : Resource -> result Workbook)
         (float_str : float -> string) (self self' : XLSXStore Resource)
         (b : Workbook) (name : selector) (skip_rows : Z)
         (has_header stop_empty : bool) (given : option FieldList),
    book load self = (Ok b, self') ->
    get_object load float_str self name skip_rows has_header stop_empty given
    = (__init__ float_str b given name (encoding self) skip_rows has_header
         stop_empty, self')
    /\ get_object load' float_str self' name skip_rows has_header stop_empty
         given
       = get_object load float_str self name skip_rows has_header stop_empty
           given.
Proof.
  intros Resource load load' float_str self self' b name skip_rows has_header
    stop_empty given Hbook.
  destruct (book_loaded_once_aux Resource load load' self self' b Hbook)
    as (_ & _ & Henc & Hagain).
  unfold get_object. rewrite Hbook, Hagain. simpl. by rewrite Henc.
Qed.

Lemma get_object_again_witness :
  get_object (fun _ : unit => Ok sample_book) sample_float_str
    (XLSXStore_init tt None) (SheetName "ragged") 0 true false None
  = (__init__ sample_float_str sample_book None (SheetName "ragged")
       (encoding (XLSXStore_init tt None)) 0 true false,
     mkStore tt None (Some sample_book))
  /\ get_object (fun _ : unit => Raise IndexError) sample_float_str
       (mkStore tt None (Some sample_book)) (SheetName "ragged") 0 true false
       None
     = get_object (fun _ : unit => Ok sample_book) sample_float_str
         (XLSXStore_init tt None) (SheetName "ragged") 0 true false None.
Proof.
  apply (get_object_again unit (fun _ => Ok sample_book)
           (fun _ => Raise IndexError) sample_float_str
           (XLSXStore_init tt None) (mkStore tt None (Some sample_book))
           sample_book).
  reflexivity.
Defined.

(** Every name that [object_names] lists can be opened: [get_object] with
    that name and a field list that is not empty returns an extractor over
    a sheet with that title, holding the given fields. *)
Theorem object_names_can_be_opened :
  forall (Resource : Type) (load load' : Resource -> result Workbook)
         (float_str : float -> string) (self self' : XLSXStore Resource)
         (names : list string) (n : string) (skip_rows : Z)
         (has_header stop_empty : bool) (f : Field) (fl : FieldList),
    object_names load self = (Ok names, self') ->
    n ∈ names ->
    exists obj : XLSXObject,
      get_object load' float_str self' (SheetName n) skip_rows has_header
        stop_empty (Some (f :: fl)) = (Ok obj, self')
      /\ title (sheet obj) = n
      /\ fields obj = f :: fl.
Proof.
  intros Resource load load' float_str self self' names n skip_rows has_header
    stop_empty f fl Hnames Hn.
  unfold object_names in Hnames.
  destruct (book load self) as [[b|e] st] eqn:Hbook; simpl in Hnames;
    [|discriminate Hnames].
  injection Hnames as <- ->.
  destruct (book_loaded_once_aux Resource load load' self self' b Hbook)
    as (_ & _ & _ & Hagain).
  destruct (workbook_getitem_Ok b n Hn) as (sh & Hsh & Htitle).
  unfold get_object. rewrite Hagain. simpl.
  unfold __init__. simpl. rewrite Hsh. simpl. eauto.
Qed.

Lemma object_names_can_be_opened_witness :
  exists obj : XLSXObject,
    get_object (fun _ : unit => Raise IndexError) sample_float_str
      (mkStore tt None (Some sample_book)) (SheetName "empty") 0 true false
      (Some [mkField "who" "string"])
    = (Ok obj, mkStore tt None (Some sample_book))
    /\ title (sheet obj) = "empty"
    /\ fields obj = [mkField "who" "string"].
Proof.
  apply (object_names_can_be_opened unit (fun _ => Ok sample_book)
           (fun _ => Raise IndexError) sample_float_str
           (XLSXStore_init tt None) (mkStore tt None (Some sample_book))
           (map title (worksheets sample_book))).
  - reflexivity.
  - set_solver.
Defined.

(** ** Header names as clean text *)

(** A text is blank or has words in it. *)
Lemma chars_decompose (chars : list string) :
  Forall (fun c => is_char c = true) chars ->
  Forall (fun c => c ∈ whitespace) chars
  \/ exists lead first more trail,
       chars = (lead ++ first ++ separated more ++ trail)%list
       /\ Forall (fun c => c ∈ whitespace) lead
       /\ is_word first
       /\ Forall (fun p => is_separator (fst p) /\ is_word (snd p)) more
       /\ Forall (fun c => c ∈ whitespace) trail.
Proof.
  induction 1 as [|c chars Hc _ IH]; [by left|].
  destruct (decide (c ∈ whitespace)) as [Hws|Hword].
  - destruct IH as [Hblank|(lead & first & more & trail & -> & Hl & Hf & Hm & Ht)].
    + left. by constructor.
    + right. exists (c :: lead), first, more, trail.
      split; [done|]. split; [by constructor|done].
  - right.
    destruct IH as [Hblank|(lead & first & more & trail & -> & Hl & Hf & Hm & Ht)].
    + exists [], [c], [], chars. repeat split; try done.
      by repeat constructor.
    + destruct lead as [|l lead].
      * exists [], (c :: first), more, trail.
        destruct Hf as [_ Hf]. repeat split; try done. by constructor.
      * exists [], [c], ((l :: lead, first) :: more), trail.
        repeat split; try done.
        -- unfold separated. simpl. by rewrite <- !app_assoc.
        -- by repeat constructor.
        -- by constructor.
Qed.

Lemma space_whitespace : " " ∈ whitespace.
Proof. vm_compute. set_solver. Qed.

Lemma str_join_cons (sep w w' : string) (ws : list string) :
  str_join sep (w :: w' :: ws) = w +:+ sep +:+ str_join sep (w' :: ws).
Proof. reflexivity. Qed.

Lemma str_join_assemble (first : list string)
    (more : list (list string * list string)) :
  str_join " " (concat_chars first :: map (fun p => concat_chars (snd p)) more)
  = assemble [] first (map (fun p => ([" "], snd p)) more) [].
Proof.
  unfold assemble. rewrite app_nil_l.
  revert first. induction more as [|[sep w] more IH]; intros first.
  - simpl. by rewrite app_nil_r.
  - rewrite !map_cons. cbn [snd]. rewrite str_join_cons, IH.
    unfold separated. cbn [flat_map fst snd].
    rewrite !concat_chars_app.
    change (concat_chars [" "]) with (" " +:+ "").
    change (concat_chars []) with "".
    by rewrite !append_assoc, !append_nil_r, !append_nil_l.
Qed.

(** The items of the cleaned text are the items of the text. *)
Lemma str_split_join_split (chars : list string) :
  Forall (fun c => is_char c = true) chars ->
  str_split (str_join " " (str_split (concat_chars chars)))
  = str_split (concat_chars chars).
Proof.
  intros Hchars.
  destruct (chars_decompose chars Hchars)
    as [Hblank|(lead & first & more & trail & -> & Hl & Hf & Hm & Ht)].
  - assert (Hnil : str_split (concat_chars chars) = []).
    { apply str_split_blank_iff. by exists chars. }
    by rewrite Hnil.
  - fold (assemble lead first more trail).
    rewrite (str_split_assemble lead first more trail) by done.
    rewrite str_join_assemble.
    rewrite str_split_assemble; try done.
    + by rewrite map_map.
    + apply Forall_forall. intros p (q & -> & Hq)%list_elem_of_fmap. simpl.
      rewrite Forall_forall in Hm. destruct (Hm q Hq) as [_ Hw].
      split; [|done]. split; [done|].
      constructor; [apply space_whitespace|constructor].
Qed.

(** A header name is clean: it has the same words as the text of the
    cell, and cleaning it once more changes nothing, so a name used again
    as a header text comes out as it is. *)
Theorem header_name_is_clean :
  forall (float_str : float -> string) (cell : Cell) (date_flag : bool)
         (tag : string) (chars : list string),
    py_str float_str (value cell) = concat_chars chars ->
    Forall (fun c => is_char c = true) chars ->
    map str_split (header_names float_str [cell])
    = [str_split (py_str float_str (value cell))]
    /\ header_names float_str
         (map (fun n => mkCell (VStr n) date_flag tag)
            (header_names float_str [cell]))
       = header_names float_str [cell].
Proof.
  intros float_str cell date_flag tag chars Htext Hchars.
  pose proof (str_split_join_split chars Hchars) as Hsplit.
  rewrite <- Htext in Hsplit.
  unfold header_names. simpl. by rewrite Hsplit.
Qed.

Lemma header_name_is_clean_witness :
  map str_split (header_names sample_float_str [wrapped_header])
  = [str_split (py_str sample_float_str (value wrapped_header))]
  /\ header_names sample_float_str
       (map (fun n => mkCell (VStr n) false TYPE_STRING)
          (header_names sample_float_str [wrapped_header]))
     = header_names sample_float_str [wrapped_header].
Proof.
  apply (header_name_is_clean sample_float_str wrapped_header false TYPE_STRING
           ([" "; "P"; "r"; "i"; "x"; " "; utf8_encode 0xA0; utf8_encode 0xE0;
             utf8_encode 0x9; "p"; "a"; "y"; "e"; "r"; utf8_encode 0x2003])).
  - reflexivity.
  - repeat constructor.
Defined.

(** ** Records *)

Lemma fold_insert_notin {V} (pairs : list (string * V)) (k : string) :
  forall d : gmap string V,
    k ∉ map fst pairs ->
    fold_left (fun d kv => <[fst kv := snd kv]> d) pairs d !! k = d !! k.
Proof.
  induction pairs as [|[k' v'] pairs IH]; intros d Hk; simpl; [done|].
  simpl in Hk. apply not_elem_of_cons in Hk as [Hne Hk].
  rewrite IH by done. by rewrite lookup_insert_ne.
Qed.

Lemma fold_insert_in {V} (pairs : list (string * V)) (k : string) :
  forall d : gmap string V,
    k ∈ map fst pairs ->
    is_Some (fold_left (fun d kv => <[fst kv := snd kv]> d) pairs d !! k).
Proof.
  induction pairs as [|[k' v'] pairs IH]; intros d Hk; simpl.
  - by apply elem_of_nil in Hk.
  - destruct (decide (k ∈ map fst pairs)) as [Hin|Hout]; [by apply IH|].
    simpl in Hk. apply elem_of_cons in Hk as [->|Hin]; [|done].
    rewrite fold_insert_notin by done. simpl.
    rewrite lookup_insert_eq. eauto.
Qed.

Lemma fst_zip_take {A B} (xs : list A) (ys : list B) :
  map fst (zip xs ys) = take (length ys) xs.
Proof.
  revert ys. induction xs as [|x xs IH]; intros [|y ys]; simpl; try done.
  by rewrite IH.
Qed.

Lemma fold_insert_at {V} (names : list string) :
  forall (vals : list V) (d : gmap string V) (i : nat) (k : string) (v : V),
    names !! i = Some k ->
    vals !! i = Some v ->
    (forall j : nat, (i < j)%nat -> (j < length vals)%nat -> names !! j <> Some k) ->
    fold_left (fun d kv => <[fst kv := snd kv]> d) (zip names vals) d !! k
    = Some v.
Proof.
  induction names as [|n names IH]; intros vals d i k v Hk Hv Hlast; [done|].
  destruct vals as [|x vals]; [done|].
  destruct i as [|i]; simpl in *.
  - injection Hk as ->. injection Hv as ->.
    rewrite fold_insert_notin; [by rewrite lookup_insert_eq|].
    rewrite fst_zip_take.
    intros (j & Hj)%list_elem_of_lookup.
    apply lookup_take_Some in Hj as [Hj Hlt].
    apply (Hlast (S j)); [lia|lia|done].
  - apply (IH vals _ i); [done|done|].
    intros j Hij Hj. apply (Hlast (S j)); lia.
Qed.

(** What a pull on [rows] gives, turned into what [records] gives. *)
Lemma records_step (fields : list string) (rg : record_generator)
    (g : generator) :
  rg = RSuspended fields g
  \/ (rg = RFinished /\ g = Finished)
  \/ (exists self, rg = RCreated self /\ g = Created self
                   /\ fields = FieldList_names (XLSX.fields self)) ->
  fst (next_record rg)
  = match fst (next g) with
    | Yielded t => RYielded (py_dict (zip fields t))
    | Stopped => RStopped
    | Raised e => RRaised e
    end
  /\ (snd (next_record rg) = RSuspended fields (snd (next g))
      \/ (snd (next_record rg) = RFinished /\ snd (next g) = Finished)).
Proof.
  assert (Hresume : forall g0,
    fst (resume_records fields g0)
    = match fst (next g0) with
      | Yielded t => RYielded (py_dict (zip fields t))
      | Stopped => RStopped
      | Raised e => RRaised e
      end
    /\ (snd (resume_records fields g0) = RSuspended fields (snd (next g0))
        \/ (snd (resume_records fields g0) = RFinished
            /\ snd (next g0) = Finished))).
  { intros g0. unfold resume_records.
    pose proof (next_finished g0) as Hfin.
    destruct (next g0) as [[t| |e] g'] eqn:Hnext; simpl in *; split; eauto.
    right. split; [done|]. apply Hfin. eauto. }
  intros [->|[[-> ->]|(self & -> & -> & ->)]].
  - apply Hresume.
  - simpl. eauto.
  - apply Hresume.
Qed.

(** [records()] follows [rows()] pull by pull: it yields the dictionary
    of the field names zipped with the tuple when [rows()] yields a tuple,
    stops when [rows()] stops and raises what [rows()] raises. *)
Theorem records_follow_rows :
  forall (self : XLSXObject) (j : nat),
    fst (next_record (advance_records j (records self)))
    = match fst (next (advance j (rows self))) with
      | Yielded t => RYielded (py_dict (zip (FieldList_names (fields self)) t))
      | Stopped => RStopped
      | Raised e => RRaised e
      end.
Proof.
  intros self j.
  enough (H : forall rg g,
    rg = RSuspended (FieldList_names (fields self)) g
    \/ (rg = RFinished /\ g = Finished)
    \/ (exists self', rg = RCreated self' /\ g = Created self'
                      /\ FieldList_names (fields self)
                         = FieldList_names (fields self')) ->
    fst (next_record (advance_records j rg))
    = match fst (next (advance j g)) with
      | Yielded t => RYielded (py_dict (zip (FieldList_names (fields self)) t))
      | Stopped => RStopped
      | Raised e => RRaised e
      end).
  { apply H. right; right. by exists self. }
  induction j as [|j IH]; intros rg g Hpair;
    destruct (records_step _ rg g Hpair) as [Hfst Hsnd]; simpl; [done|].
  apply IH. destruct Hsnd as [->|[-> ->]]; eauto.
Qed.

(** In the record of a tuple, the name of field [i] is bound to value [i]
    of the tuple, provided no later field within the width of the tuple
    has the same name (of two fields with one name the later one wins). *)
Theorem record_value_by_position :
  forall (self : XLSXObject) (t : list raw_value) (i : nat) (f : Field)
         (v : raw_value),
    fields self !! i = Some f ->
    t !! i = Some v ->
    (forall (j : nat) (f' : Field),
       (i < j)%nat -> (j < length t)%nat -> fields self !! j = Some f' ->
       name f' <> name f) ->
    py_dict (zip (FieldList_names (fields self)) t) !! name f = Some v.
Proof.
  intros self t i f v Hf Hv Hlast.
  unfold py_dict, FieldList_names, FieldList in *.
  apply (fold_insert_at _ _ _ i); [|done|].
  - by rewrite list_lookup_fmap, Hf.
  - intros j Hij Hj. rewrite list_lookup_fmap.
    intros (f' & Hf' & Heq)%fmap_Some. by apply (Hlast j f').
Qed.

Lemma record_value_by_position_witness :
  py_dict (zip (FieldList_names (fields ragged_object))
             [VStr "Ann"; VFloat 9.5]) !! name (mkField "Score" "float")
  = Some (VFloat 9.5).
Proof.
  apply (record_value_by_position ragged_object [VStr "Ann"; VFloat 9.5] 1).
  - reflexivity.
  - reflexivity.
  - intros j f' Hij Hj. simpl in Hj. lia.
Defined.

(** The keys of the record of a tuple are the names of the fields within
    the width of the tuple, no more and no less: a short row gives a
    record without the trailing fields, not one with null values. *)
Theorem record_keys :
  forall (self : XLSXObject) (t : list raw_value) (k : string),
    is_Some (py_dict (zip (FieldList_names (fields self)) t) !! k)
    <-> k ∈ take (length t) (FieldList_names (fields self)).
Proof.
  intros self t k. unfold py_dict.
  rewrite <- (fst_zip_take (FieldList_names (fields self)) t).
  split.
  - intros Hsome.
    destruct (decide (k ∈ map fst (zip (FieldList_names (fields self)) t)))
      as [Hin|Hout]; [done|].
    rewrite fold_insert_notin, lookup_empty in Hsome by done.
    by destruct Hsome.
  - apply fold_insert_in.
Qed.

End XLSX.
